(** * SSL referee analysis page: the sample payload and its rendering

    A shallow embedding of [script.js]: the literal array
    [sampleRefereeData], the card builder [createRefereeCard] and the
    severity lookup [getSeverityEmoji], together with the properties the
    specification states about the per-referee records.

    JavaScript numbers are IEEE 754 binary64 values; they are modelled by
    Rocq's primitive floats, so a decimal literal such as [11.1] denotes
    the same double here as in the script.  Exact rational arithmetic
    ([Q]) is used for the formulas of the specification, and
    [float_to_Q] gives the exact rational value of a finite double. *)

From Stdlib Require Import ZArith QArith Qabs Qround Qpower List String Ascii Bool Lia Lqa.
From Stdlib Require Import Permutation.
From Stdlib Require Import Floats DecimalString DecimalPos DecimalN.
Import ListNotations.

#[local] Set Warnings "-inexact-float,-register-all".
#[local] Open Scope string_scope.

(** ** JavaScript values *)

Module JS.

(** The values that occur in the script's data: numbers, strings, arrays
    and object literals (own properties in source order).  [VNative]
    stands for a built-in function or object of the runtime, which an
    object literal reaches through its prototype. *)
Inductive value : Type :=
| VUndefined
| VNumber (n : float)
| VString (s : string)
| VArray (elems : list value)
| VObject (props : list (string * value))
| VNative (name : string).

(** Own property lookup of an object literal (the script's literals
    repeat no property name). *)
Fixpoint ownProperty (k : string) (props : list (string * value)) : option value :=
  match props with
  | [] => None
  | (k', v) :: rest => if String.eqb k k' then Some v else ownProperty k rest
  end.

(** The property names every object literal inherits from
    [Object.prototype] (ECMAScript, including the Annex B accessors). *)
Definition Object_prototype : list string :=
  [ "constructor"; "hasOwnProperty"; "isPrototypeOf"; "propertyIsEnumerable";
    "toLocaleString"; "toString"; "valueOf"; "__proto__";
    "__defineGetter__"; "__defineSetter__"; "__lookupGetter__"; "__lookupSetter__" ].

Definition inherited (k : string) : bool :=
  existsb (String.eqb k) Object_prototype.

(** [o[k]] for an object literal [o]: own properties first, then the
    prototype, otherwise [undefined].  It is used on object literals
    only; on other values the readers below take [undefined] as a failed
    read. *)
Definition get (o : value) (k : string) : value :=
  match o with
  | VObject props =>
      match ownProperty k props with
      | Some v => v
      | None => if inherited k then VNative k else VUndefined
      end
  | _ => VUndefined
  end.

(** [Object.keys(o)]. *)
Definition keys (o : value) : list string :=
  match o with
  | VObject props => map fst props
  | _ => []
  end.

(** ToBoolean. *)
Definition truthy (v : value) : bool :=
  match v with
  | VUndefined => false
  | VNumber n => negb (PrimFloat.eqb n 0 || PrimFloat.is_nan n)
  | VString s => negb (String.eqb s "")
  | VArray _ | VObject _ | VNative _ => true
  end.

(** [a || b]. *)
Definition or_else (a b : value) : value := if truthy a then a else b.

(** [typeof v]. *)
Definition typeof (v : value) : string :=
  match v with
  | VUndefined => "undefined"
  | VNumber _ => "number"
  | VString _ => "string"
  | VArray _ | VObject _ => "object"
  | VNative k => if String.eqb k "__proto__" then "object" else "function"
  end.

Definition isArray (v : value) : bool :=
  match v with VArray _ => true | _ => false end.

Definition elements (v : value) : list value :=
  match v with VArray l => l | _ => [] end.

End JS.
Import JS.

(** ** The sample payload *)

Definition num (n : float) : value := VNumber n.
Definition str (s : string) : value := VString s.

Definition sampleRefereeData : value :=
  VArray
  [ VObject
      [ ("id", num 3262);
        ("name", str "Patric Terelius");
        ("matches", num 4);
        ("penalties", num 10);
        ("avgPenalties", num 2.5);
        ("homeBias", num 20.0);
        ("observations", VArray
          [ VObject [ ("type", str "TIMING_PATTERN"); ("severity", str "MEDIUM");
                      ("description", str "Calls disproportionate number of penalties in final period (60.0%)") ]
          ]) ];
    VObject
      [ ("id", num 395);
        ("name", str "Patrik Trofast");
        ("matches", num 5);
        ("penalties", num 9);
        ("avgPenalties", num 1.8);
        ("homeBias", num 11.1);
        ("observations", VArray
          [ VObject [ ("type", str "TIMING_PATTERN"); ("severity", str "MEDIUM");
                      ("description", str "Calls disproportionate number of penalties in final period (66.7%)") ];
            VObject [ ("type", str "PENALTY_TYPE_BIAS"); ("severity", str "LOW");
                      ("description", str "Shows strong preference for calling 'Fasthållning, 2 min' (44.4%)") ]
          ]) ];
    VObject
      [ ("id", num 3216);
        ("name", str "Martin Jonsson");
        ("matches", num 1);
        ("penalties", num 5);
        ("avgPenalties", num 5.0);
        ("homeBias", num 20.0);
        ("observations", VArray
          [ VObject [ ("type", str "PENALTY_RATE"); ("severity", str "MEDIUM");
                      ("description", str "Unusually strict referee - calls 5.0 penalties per match vs league average of 2.6") ]
          ]) ];
    VObject
      [ ("id", num 665);
        ("name", str "Joakim Mattsson");
        ("matches", num 1);
        ("penalties", num 5);
        ("avgPenalties", num 5.0);
        ("homeBias", num 20.0);
        ("observations", VArray
          [ VObject [ ("type", str "PENALTY_RATE"); ("severity", str "MEDIUM");
                      ("description", str "Unusually strict referee - calls 5.0 penalties per match") ]
          ]) ];
    VObject
      [ ("id", num 3225);
        ("name", str "David Dornlöv");
        ("matches", num 4);
        ("penalties", num 6);
        ("avgPenalties", num 1.5);
        ("homeBias", num (-33.3));
        ("observations", VArray
          [ VObject [ ("type", str "HOME_AWAY_BIAS"); ("severity", str "MEDIUM");
                      ("description", str "Shows significant bias AGAINST away team - calls 15.3% more penalties than league average") ]
          ]) ]
  ].

(** ** Typed view of a referee record

    The functions of the script read [referee.matches],
    [referee.observations] and so on; the records below are what those
    reads yield on the payload. *)

Record Observation := mkObservation {
  type : string;
  severity : string;
  description : string
}.

Record Referee := mkReferee {
  id : float;
  name : string;
  matches : float;
  penalties : float;
  avgPenalties : float;
  homeBias : float;
  observations : list Observation
}.

Definition asNumber (v : value) : option float :=
  match v with VNumber n => Some n | _ => None end.

Definition asString (v : value) : option string :=
  match v with VString s => Some s | _ => None end.

Definition asArray (v : value) : option (list value) :=
  match v with VArray l => Some l | _ => None end.

(** A small option monad for the readers. *)
Definition bind {A B} (x : option A) (f : A -> option B) : option B :=
  match x with Some a => f a | None => None end.

Notation "x <- c ;; k" := (bind c (fun x => k))
  (at level 61, c at next level, right associativity).

Fixpoint traverse {A B} (f : A -> option B) (l : list A) : option (list B) :=
  match l with
  | [] => Some []
  | a :: rest => b <- f a ;; bs <- traverse f rest ;; Some (b :: bs)
  end.

Definition readObservation (o : value) : option Observation :=
  t <- asString (get o "type") ;;
  s <- asString (get o "severity") ;;
  d <- asString (get o "description") ;;
  Some (mkObservation t s d).

Definition readReferee (r : value) : option Referee :=
  i <- asNumber (get r "id") ;;
  n <- asString (get r "name") ;;
  m <- asNumber (get r "matches") ;;
  p <- asNumber (get r "penalties") ;;
  a <- asNumber (get r "avgPenalties") ;;
  h <- asNumber (get r "homeBias") ;;
  os <- asArray (get r "observations") ;;
  obs <- traverse readObservation os ;;
  Some (mkReferee i n m p a h obs).

Definition readPayload (v : value) : option (list Referee) :=
  rs <- asArray v ;; traverse readReferee rs.

(** The payload as a list of typed records. *)
Definition referees : list Referee :=
  Eval vm_compute in
    match readPayload sampleRefereeData with Some l => l | None => [] end.

(** ** The script's functions *)

#[local] Open Scope float_scope.

(** [getSeverityEmoji]: lookup in the object literal [emojis], with the
    blue circle as the fallback of [||]. *)
Definition emojis : value :=
  VObject
    [ ("LOW", str "🟡");
      ("MEDIUM", str "🟠");
      ("HIGH", str "🔴");
      ("CRITICAL", str "⚠️") ].

Definition defaultEmoji : value := str "🔵".

Definition getSeverityEmoji (severity : string) : value :=
  or_else (get emojis severity) defaultEmoji.

(** What [createRefereeCard] computes from a referee before it writes the
    markup: the class list, the [data-filter] attribute, the colour and
    sign of the home-bias figure, and one line per observation.  The
    text of the markup itself (number formatting by [toFixed]) is not
    part of the model. *)
Record Card := mkCard {
  classList : list string;
  dataset_filter : string;
  biasColor : string;
  biasSign : string;
  observationLines : list (value * string * string)
}.

Definition red : string := "#ef4444".
Definition blue : string := "#3b82f6".
Definition green : string := "#10b981".

Definition hasObservations (referee : Referee) : bool :=
  (0 <? List.length (observations referee))%nat.

Definition cardClasses (referee : Referee) : list string :=
  let c0 := ["referee-card"] in
  let c1 := if hasObservations referee then (c0 ++ ["has-bias"])%list else c0 in
  if 3.5 <? avgPenalties referee then (c1 ++ ["strict"])%list
  else if avgPenalties referee <? 2.0 then (c1 ++ ["lenient"])%list
  else c1.

Definition cardFilter (referee : Referee) : string :=
  let f0 := "all"%string in
  let f1 := if hasObservations referee then (f0 ++ " bias")%string else f0 in
  let f2 := if 3.5 <? avgPenalties referee then (f1 ++ " strict")%string else f1 in
  if avgPenalties referee <? 2.0 then (f2 ++ " lenient")%string else f2.

Definition cardBiasColor (referee : Referee) : string :=
  if 15 <? homeBias referee then red
  else if homeBias referee <? -15 then blue
  else green.

Definition observationLine (obs : Observation) : value * string * string :=
  (getSeverityEmoji (severity obs), severity obs, description obs).

Definition createRefereeCard (referee : Referee) : Card :=
  {| classList := cardClasses referee;
     dataset_filter := cardFilter referee;
     biasColor := cardBiasColor referee;
     biasSign := if 0 <? homeBias referee then "+"%string else ""%string;
     observationLines := map observationLine (observations referee) |}.

(** [populateRefereesList]: the [forEach] over the payload appends one
    card per record to the children of the list element. *)
Definition populateRefereesList (refereesList : list Card) : list Card :=
  fold_left (fun children referee => (children ++ [createRefereeCard referee])%list)
            referees refereesList.

(** ** Exact values of doubles *)

(** The rational number a finite double stands for; [None] for NaN and
    the infinities. *)
Definition float_to_Q (f : float) : option Q :=
  match Prim2SF f with
  | S754_zero _ => Some 0%Q
  | S754_finite sign m e =>
      let q := (inject_Z (Zpos m) * Qpower 2 e)%Q in
      Some (Qred (if sign then Qopp q else q))
  | S754_infinity _ | S754_nan => None
  end.

(** A count is a double holding a natural number. *)
Definition float_to_N (f : float) : option N :=
  match float_to_Q f with
  | Some (Qmake (Zpos n) 1) => Some (Npos n)
  | Some (Qmake Z0 1) => Some 0%N
  | _ => None
  end.

Definition N_to_Q (n : N) : Q := inject_Z (Z.of_N n).

(** ** The metrics of the specification *)

(** Modelled from the spec: the Statistical Processor's formula
    [avgPenalties = penalties / matches] (section 4.1); the script holds
    only its results.  The quotient has no value for zero matches. *)
Definition avgPenalties_spec (penalties matches : N) : option Q :=
  if (matches =? 0)%N then None
  else Some (Qred (N_to_Q penalties / N_to_Q matches)).

(** Modelled from the spec: the Statistical Processor's formula
    [homeBias = 100 * (homePenalties - awayPenalties) / totalPenalties]
    (section 4.1), the total being home plus away; the script holds only
    its results.  The quotient has no value for a referee without
    penalties. *)
Definition homeBias_spec (homePenalties awayPenalties : N) : option Q :=
  let totalPenalties := (homePenalties + awayPenalties)%N in
  if (totalPenalties =? 0)%N then None
  else Some (Qred (100 * (N_to_Q homePenalties - N_to_Q awayPenalties)
                    / N_to_Q totalPenalties)).

(** The fixed order of observation kinds (section 4.2). *)
Definition kindOrder : list string :=
  [ "PENALTY_RATE"; "HOME_AWAY_BIAS"; "TIMING_PATTERN"; "PENALTY_TYPE_BIAS" ].

(** The record shape of section 6. *)
Definition specShape : list string :=
  [ "matches"; "penalties"; "avgPenalties"; "homeBias"; "observations" ].

(** The shape the literal records have. *)
Definition payloadShape : list string :=
  [ "id"; "name"; "matches"; "penalties"; "avgPenalties"; "homeBias"; "observations" ].

Definition observationShape : list string :=
  [ "type"; "severity"; "description" ].

(** The default minimum sample size of section 4.1. *)
Definition minSampleSize : float := 3.

(** Observations of a given kind on a record. *)
Definition ofKind (k : string) (r : Referee) : list Observation :=
  filter (fun o => String.eqb (type o) k) (observations r).

(** [l] is [m] with some elements left out, order kept. *)
Inductive Subsequence {A : Type} : list A -> list A -> Prop :=
| Subsequence_nil : forall m, Subsequence [] m
| Subsequence_take : forall x l m, Subsequence l m -> Subsequence (x :: l) (x :: m)
| Subsequence_skip : forall x l m, Subsequence l m -> Subsequence l (x :: m).

Fixpoint subsequenceb (l m : list string) : bool :=
  match l, m with
  | [], _ => true
  | _ :: _, [] => false
  | x :: l', y :: m' =>
      if String.eqb x y then subsequenceb l' m' else subsequenceb l m'
  end.

(** The error of a record's [avgPenalties] against the exact quotient of
    its counts. *)
Definition avgPenalties_error (r : Referee) : option Q :=
  a <- float_to_Q (avgPenalties r) ;;
  p <- float_to_N (penalties r) ;;
  m <- float_to_N (matches r) ;;
  if (m =? 0)%N then None
  else Some (Qabs (a - N_to_Q p / N_to_Q m)).

Definition tolerance : Q := 1 # 1000000000.

(** The record at position [i] of the payload. *)
Definition record (i : nat) : Referee :=
  nth i referees (mkReferee 0 "" 0 0 0 0 []).

(** What a card line keeps of an observation besides the emoji. *)
Definition lineText (line : value * string * string) : string * string :=
  (snd (fst line), snd line).

Definition observationText (o : Observation) : string * string :=
  (severity o, description o).

(** The records of a raw payload value and their shape. *)
Definition isNumber (v : value) : Prop := typeof v = "number"%string.
Definition isString (v : value) : Prop := typeof v = "string"%string.

Definition observationShaped (o : value) : Prop :=
  keys o = observationShape
  /\ isString (get o "type")
  /\ isString (get o "severity")
  /\ isString (get o "description").

Definition refereeShaped (v : value) : Prop :=
  keys v = payloadShape
  /\ isNumber (get v "id")
  /\ isString (get v "name")
  /\ isNumber (get v "matches")
  /\ isNumber (get v "penalties")
  /\ isNumber (get v "avgPenalties")
  /\ isNumber (get v "homeBias")
  /\ isArray (get v "observations") = true
  /\ Forall observationShaped (elements (get v "observations")).

(** The payload's one-decimal [homeBias] figures are the formula's values
    for a split of the record's penalties into home and away calls. *)
Definition fitsSplit (r : Referee) (home away : N) : bool :=
  match float_to_N (penalties r), float_to_Q (homeBias r), homeBias_spec home away with
  | Some p, Some shown, Some exact =>
      ((home + away =? p)%N && Qle_bool (Qabs (shown - exact)) (5 # 100))%bool
  | _, _, _ => false
  end.

(** The league's home and away penalty counts, the data of the
    home/away chart in [initializeCharts]. *)
Definition leagueHomeAway : N * N := (35, 37)%N.

(** The home and away calls behind each record's [homeBias], in payload
    order (see [fitsSplit]). *)
Definition payloadSplits : list (N * N) :=
  [ (6, 4); (5, 4); (3, 2); (3, 2); (2, 4) ]%N.

(** By how many percentage points a referee's share of home calls
    departs from the league's. *)
Definition leagueDeviation (home away : N) : Q :=
  let share (h a : N) := (N_to_Q h / N_to_Q (h + a))%Q in
  (100 * Qabs (share home away
               - share (fst leagueHomeAway) (snd leagueHomeAway)))%Q.

Definition flaggedHomeAway (r : Referee) : bool :=
  match ofKind "HOME_AWAY_BIAS" r with [] => false | _ :: _ => true end.

(** The four severities of the lookup table. *)
Definition severities : list string := [ "LOW"; "MEDIUM"; "HIGH"; "CRITICAL" ].

(** ** The analysis of the specification *)

(** Modelled from the spec: the raw counts the Statistical Processor
    draws for one referee from the normalized Match and Penalty records
    (sections 3 and 4.1): matches officiated, penalties against the home
    and the away side, and penalties called in the final period.  The
    script holds no such input and no analysis. *)
Record Tally := mkTally {
  tally_matches : N;
  tally_home : N;
  tally_away : N;
  tally_final : N
}.

(** Modelled from the spec: the four kinds of Observation, in the fixed
    order of section 4.2. *)
Inductive Kind : Type :=
| PENALTY_RATE
| HOME_AWAY_BIAS
| TIMING_PATTERN
| PENALTY_TYPE_BIAS.

(** Modelled from the spec: the kinds in their fixed order, and the name
    each has in the [type] field of an Observation. *)
Definition allKinds : list Kind :=
  [ PENALTY_RATE; HOME_AWAY_BIAS; TIMING_PATTERN; PENALTY_TYPE_BIAS ].

Definition kindName (k : Kind) : string :=
  match k with
  | PENALTY_RATE => "PENALTY_RATE"
  | HOME_AWAY_BIAS => "HOME_AWAY_BIAS"
  | TIMING_PATTERN => "TIMING_PATTERN"
  | PENALTY_TYPE_BIAS => "PENALTY_TYPE_BIAS"
  end.

(** Modelled from the spec: the default minimum sample size (section
    4.1), as a count. *)
Definition minSample : N := 3.

(** Modelled from the spec: the HOME_AWAY_BIAS rule of section 4.2: flag
    when the home bias is at least 15 points in absolute value, MEDIUM
    from 15 to 25 and HIGH above 25. *)
Definition homeAwaySeverity (bias : Q) : option string :=
  if Qle_bool 15 (Qabs bias)
  then Some (if Qle_bool (Qabs bias) 25 then "MEDIUM" else "HIGH")
  else None.

(** Modelled from the spec: the per-referee record of section 6.  The
    home bias has no value for a referee without penalties. *)
Record Report := mkReport {
  report_matches : N;
  report_penalties : N;
  report_avgPenalties : Q;
  report_homeBias : option Q;
  report_observations : list Observation
}.

Section PatternDetector.

(** What the specification leaves to configuration and wording: the
    finding (severity and description) of the rules PENALTY_RATE,
    TIMING_PATTERN and PENALTY_TYPE_BIAS for a referee, and the text of a
    home/away finding. *)
Variable otherRule : Kind -> Tally -> option (string * string).
Variable biasText : Q -> string.

(** Modelled from the spec: what one rule of the Pattern Detector yields
    for a referee, zero or one Observation of its kind. *)
Definition ruleOf (k : Kind) (t : Tally) : list Observation :=
  match k with
  | HOME_AWAY_BIAS =>
      match homeBias_spec (tally_home t) (tally_away t) with
      | Some bias =>
          match homeAwaySeverity bias with
          | Some s => [ {| type := kindName HOME_AWAY_BIAS; severity := s;
                           description := biasText bias |} ]
          | None => []
          end
      | None => []
      end
  | _ =>
      match otherRule k t with
      | Some (s, d) => [ {| type := kindName k; severity := s; description := d |} ]
      | None => []
      end
  end.

(** Modelled from the spec: what a run of the detector finds when it
    evaluates the rules in the internal order [order]. *)
Definition findings (order : list Kind) (t : Tally) : list Observation :=
  flat_map (fun k => ruleOf k t) order.

(** Modelled from the spec: the findings handed out in the fixed order of
    kinds, regardless of the order they were found in (section 4.2). *)
Definition arrange (found : list Observation) : list Observation :=
  flat_map (fun k => filter (fun o => String.eqb (type o) (kindName k)) found)
           allKinds.

(** Modelled from the spec: one run of the Pattern Detector; below the
    minimum sample size the Observations are suppressed (section 4.1). *)
Definition detect (order : list Kind) (t : Tally) : list Observation :=
  if (tally_matches t <? minSample)%N then []
  else arrange (findings order t).

(** Modelled from the spec: the analysis of one referee (sections 4.1 and
    6): no record for a referee without matches, otherwise the counts,
    the two metrics and the Observations. *)
Definition analyse (order : list Kind) (t : Tally) : option Report :=
  let penalties := (tally_home t + tally_away t)%N in
  match avgPenalties_spec penalties (tally_matches t) with
  | None => None
  | Some avg =>
      Some {| report_matches := tally_matches t;
              report_penalties := penalties;
              report_avgPenalties := avg;
              report_homeBias := homeBias_spec (tally_home t) (tally_away t);
              report_observations := detect order t |}
  end.

End PatternDetector.

(** The end-to-end example of section 8: one referee, 4 matches, 10
    penalties, 6 against the home and 4 against the away side, 6 of the
    10 in the final period. *)
Definition exampleTally : Tally :=
  {| tally_matches := 4; tally_home := 6; tally_away := 4; tally_final := 6 |}.

(** A referee with matches and without penalties. *)
Definition quietTally : Tally :=
  {| tally_matches := 1; tally_home := 0; tally_away := 0; tally_final := 0 |}.

(** A run of the detector to try the statements on: the rule
    TIMING_PATTERN finds a MEDIUM pattern, the rules PENALTY_RATE and
    PENALTY_TYPE_BIAS find nothing. *)
Definition timingOnly (k : Kind) (t : Tally) : option (string * string) :=
  match k with
  | TIMING_PATTERN => Some ("MEDIUM", "Calls disproportionate number of penalties in final period")
  | _ => None
  end.

Definition plainBiasText (bias : Q) : string := "Shows significant home/away bias".

(** ** The filter buttons *)

(** [s.startsWith(t)] and [s.includes(t)] of the runtime. *)
Fixpoint startsWith (s t : string) {struct t} : bool :=
  match t, s with
  | EmptyString, _ => true
  | String _ _, EmptyString => false
  | String b t', String a s' => (Ascii.eqb a b && startsWith s' t')%bool
  end.

Fixpoint includes (s t : string) : bool :=
  (startsWith s t
   || match s with
      | EmptyString => false
      | String _ s' => includes s' t
      end)%bool.

(** A [classList] is a list of class names without repetition:
    [contains], [add] and [remove] of the runtime. *)
Definition classList_contains (l : list string) (c : string) : bool :=
  existsb (String.eqb c) l.

Definition classList_add (l : list string) (c : string) : list string :=
  if classList_contains l c then l else (l ++ [c])%list.

Definition classList_remove (l : list string) (c : string) : list string :=
  filter (fun x => negb (String.eqb x c)) l.

(** A filter button: its [data-filter] attribute ([None] when the
    attribute is absent, so that [button.dataset.filter] is
    [undefined]) and its class list. *)
Record Button := mkButton {
  button_filter : option string;
  button_classList : list string
}.

(** What the listener finds behind a [.referee-card] element: a card as
    [createRefereeCard] writes it, which carries its [data-filter]
    attribute (the builder sets it on every card), or another element of
    that class, whose attribute may be absent. *)
Inductive CardNode : Type :=
| builtCard (c : Card)
| otherCard (filter : option string).

Coercion builtCard : Card >-> CardNode.

(** [card.dataset.filter]: [None] when the element has no [data-filter]
    attribute. *)
Definition nodeFilter (n : CardNode) : option string :=
  match n with
  | builtCard c => Some (dataset_filter c)
  | otherCard filter => filter
  end.

(** A card element of the page: what it is and its [style.display]. *)
Record CardElement := mkCardElement {
  card : CardNode;
  style_display : string
}.

(** What [setupFilterButtons] holds on to: the buttons and the cards the
    two [querySelectorAll] calls returned. *)
Record Page := mkPage {
  filterButtons : list Button;
  refereeCards : list CardElement
}.

(** The string the runtime makes of [button.dataset.filter] when it is
    passed to [includes]. *)
Definition filterText (filter : option string) : string :=
  match filter with Some s => s | None => "undefined" end.

(** The test of the click listener on a card with its attribute:
    [filter === 'all' || card.dataset.filter.includes(filter)]. *)
Definition matchesFilter (filter : option string) (c : Card) : bool :=
  ((match filter with Some s => String.eqb s "all" | None => false end)
   || includes (dataset_filter c) (filterText filter))%bool.

(** The same test on any element of the page.  Unless the filter is all,
    the test calls [includes] on [card.dataset.filter]; on an element
    without the attribute that is a call on [undefined] and raises a
    TypeError: [None]. *)
Definition testCard (filter : option string) (n : CardNode) : option bool :=
  if match filter with Some s => String.eqb s "all" | None => false end
  then Some true
  else match nodeFilter n with
       | Some attr => Some (includes attr (filterText filter))
       | None => None
       end.

Definition setDisplay (shown : bool) (c : CardElement) : CardElement :=
  {| card := card c;
     style_display := if shown then "block" else "none" |}.

(** The [forEach] of the listener over the cards.  It sets the display of
    one card after the other and stops at the first card on which the
    test raises; that card and the ones after it keep their display.  The
    second component tells whether the loop ran to its end. *)
Fixpoint showCards (filter : option string) (cards : list CardElement)
  : list CardElement * bool :=
  match cards with
  | [] => ([], true)
  | c :: rest =>
      match testCard filter (card c) with
      | None => (c :: rest, false)
      | Some shown =>
          let done := showCards filter rest in
          (setDisplay shown c :: fst done, snd done)
      end
  end.

Definition deactivate (b : Button) : Button :=
  {| button_filter := button_filter b;
     button_classList := classList_remove (button_classList b) "active" |}.

Definition activate (b : Button) : Button :=
  {| button_filter := button_filter b;
     button_classList := classList_add (button_classList b) "active" |}.

Fixpoint updateAt {A} (i : nat) (f : A -> A) (l : list A) : list A :=
  match l, i with
  | [], _ => []
  | x :: rest, O => f x :: rest
  | x :: rest, S j => x :: updateAt j f rest
  end.

(** A click on the [i]-th filter button runs the listener
    [setupFilterButtons] attached to it: every button loses the class
    [active], the clicked one gets it, and then the cards are shown or
    hidden by the button's filter, as far as the loop over them gets.
    The result is the page the listener leaves behind, whether it
    returned or raised.  Without an [i]-th button nothing happens. *)
Definition click (i : nat) (p : Page) : Page :=
  match nth_error (filterButtons p) i with
  | None => p
  | Some button =>
      {| filterButtons := updateAt i activate (map deactivate (filterButtons p));
         refereeCards := fst (showCards (button_filter button) (refereeCards p)) |}
  end.

(** Whether the listener of the [i]-th button returns on page [p] (rather
    than raising a TypeError in the loop over the cards). *)
Definition clickCompletes (i : nat) (p : Page) : bool :=
  match nth_error (filterButtons p) i with
  | None => true
  | Some button => snd (showCards (button_filter button) (refereeCards p))
  end.

Definition isActive (b : Button) : bool :=
  classList_contains (button_classList b) "active".

(** The filter values of the buttons and the card classes they stand
    for. *)
Definition filterClasses : list (string * string) :=
  [ ("bias", "has-bias"); ("strict", "strict"); ("lenient", "lenient") ].

(** The class lists and [data-filter] attributes [createRefereeCard] can
    produce. *)
Definition cardKinds : list (list string * string) :=
  [ (["referee-card"], "all");
    (["referee-card"; "strict"], "all strict");
    (["referee-card"; "lenient"], "all lenient");
    (["referee-card"; "has-bias"], "all bias");
    (["referee-card"; "has-bias"; "strict"], "all bias strict");
    (["referee-card"; "has-bias"; "lenient"], "all bias lenient") ].

(** ** Number formatting *)

(** The decimal digits of a natural number. *)
Definition digits (n : N) : string := NilZero.string_of_uint (N.to_uint n).

Fixpoint zeros (k : nat) : string :=
  match k with O => ""%string | S k' => String "0"%char (zeros k') end.

(** The integer [n] of [Number.prototype.toFixed]: the one for which
    [n / 10^f] is closest to the magnitude [a], the larger one of two. *)
Definition toFixedInteger (f : nat) (a : Q) : N :=
  Z.to_N (Qfloor (a * inject_Z (10 ^ Z.of_nat f) + (1 # 2))).

(** Where [toFixed] puts the point: the digits [m] are padded with zeros
    to [f + 1] places and the point goes before the last [f]. *)
Definition placePoint (f : nat) (m : string) : string :=
  let k := String.length m in
  let m := if (k <=? f)%nat then (zeros (f + 1 - k) ++ m)%string else m in
  let k := String.length m in
  if (f =? 0)%nat then m
  else (substring 0 (k - f) m ++ "." ++ substring (k - f) f m)%string.

Definition toFixedDigits (f : nat) (n : N) : string :=
  placePoint f (digits n).

(** What a call of [toFixed] comes to. *)
Inductive formatted : Type :=
| Written (s : string)
| RangeError
| GeneralConversion.

(** [x.toFixed(f)].  More than 100 fraction digits raise a RangeError,
    whatever [x] is.  Otherwise NaN and the infinities give their names,
    and a finite [x] gives the sign and the digits of its magnitude.
    From [10^21] on the runtime switches to its general number-to-string
    conversion, which is not modelled: [GeneralConversion]. *)
Definition toFixed (x : float) (f : nat) : formatted :=
  if (100 <? f)%nat then RangeError
  else
    match float_to_Q x with
    | None =>
        Written (if is_nan x then "NaN"
                 else if (x <? 0)%float then "-Infinity" else "Infinity")%string
    | Some q =>
        let a := Qabs q in
        if Qle_bool (inject_Z (10 ^ 21)) a then GeneralConversion
        else
          let sign := if Qle_bool 0 q then ""%string else "-"%string in
          Written (sign ++ toFixedDigits f (toFixedInteger f a))%string
    end.

Definition written (r : formatted) : option string :=
  match r with Written s => Some s | _ => None end.

(** The two figures [createRefereeCard] formats with [toFixed(1)]: the
    average, and the home bias with its sign and a percent sign. *)
Definition avgPenaltiesText (referee : Referee) : option string :=
  written (toFixed (avgPenalties referee) 1).

Definition homeBiasText (referee : Referee) : option string :=
  t <- written (toFixed (homeBias referee) 1) ;;
  Some (biasSign (createRefereeCard referee) ++ t ++ "%")%string.

(** The digit a numeral ends with, in front of the digits before it
    (lowest digit first). *)
Definition lastDigit (d : N) (rest : Decimal.uint) : Decimal.uint :=
  match d with
  | 0 => Decimal.D0 rest | 1 => Decimal.D1 rest | 2 => Decimal.D2 rest
  | 3 => Decimal.D3 rest | 4 => Decimal.D4 rest | 5 => Decimal.D5 rest
  | 6 => Decimal.D6 rest | 7 => Decimal.D7 rest | 8 => Decimal.D8 rest
  | _ => Decimal.D9 rest
  end%N.

(** ** Auxiliary facts *)

(** Reading the literal yields the typed records. *)
Lemma sampleRefereeData_reads : readPayload sampleRefereeData = Some referees.
Proof. vm_compute. reflexivity. Qed.

Ltac each_record :=
  unfold referees; repeat first [ apply Forall_nil | apply Forall_cons ].

Lemma subsequenceb_sound (l m : list string) :
  subsequenceb l m = true -> Subsequence l m.
Proof.
  revert l; induction m as [| y m IH]; intros [| x l] H; simpl in H.
  - apply Subsequence_nil.
  - discriminate.
  - apply Subsequence_nil.
  - destruct (String.eqb x y) eqn:E.
    + apply String.eqb_eq in E; subst y.
      apply Subsequence_take, IH, H.
    + apply Subsequence_skip, IH, H.
Qed.

Lemma Subsequence_length {A} (l m : list A) :
  Subsequence l m -> (List.length l <= List.length m)%nat.
Proof. induction 1; simpl; lia. Qed.

Lemma Some_inj {A} (x y : A) : Some x = Some y -> x = y.
Proof. congruence. Qed.

Lemma N_to_Q_nonneg (n : N) : (0 <= N_to_Q n)%Q.
Proof.
  unfold N_to_Q. change 0%Q with (inject_Z 0).
  rewrite <- Zle_Qle. apply N2Z.is_nonneg.
Qed.

Lemma N_to_Q_add (a b : N) : (N_to_Q (a + b) == N_to_Q a + N_to_Q b)%Q.
Proof. unfold N_to_Q. rewrite N2Z.inj_add, inject_Z_plus. reflexivity. Qed.

Lemma N_to_Q_pos (n : N) : n <> 0%N -> (0 < N_to_Q n)%Q.
Proof.
  intros Hn. unfold N_to_Q. change 0%Q with (inject_Z 0).
  rewrite <- Zlt_Qlt. lia.
Qed.

(** The formulas have a value exactly when the divisor is not zero. *)
Lemma avgPenalties_spec_defined (p m : N) :
  m <> 0%N <-> exists q, avgPenalties_spec p m = Some q.
Proof.
  unfold avgPenalties_spec. destruct (N.eqb_spec m 0) as [-> | Hm]; split.
  - intros H; contradiction H; reflexivity.
  - intros [q Hq]; discriminate.
  - eauto.
  - intros _; exact Hm.
Qed.

Lemma homeBias_spec_defined (h a : N) :
  (h + a <> 0)%N <-> exists b, homeBias_spec h a = Some b.
Proof.
  unfold homeBias_spec; cbv zeta.
  destruct (N.eqb_spec (h + a) 0) as [E | Hm]; split.
  - intros H; contradiction.
  - intros [q Hq]; discriminate.
  - eauto.
  - intros _; exact Hm.
Qed.

Section HomeBiasFormula.

Variables home away : N.
Hypothesis some_penalty : (home + away)%N <> 0%N.

Let ratio : Q :=
  (100 * (N_to_Q home - N_to_Q away) / N_to_Q (home + away))%Q.

Lemma homeBias_spec_value : homeBias_spec home away = Some (Qred ratio).
Proof.
  unfold homeBias_spec; cbv zeta.
  destruct (N.eqb_spec (home + away) 0) as [E | _]; [contradiction | reflexivity].
Qed.

Lemma homeBias_ratio_range : (-100 <= ratio /\ ratio <= 100)%Q.
Proof.
  pose proof (N_to_Q_nonneg home) as Hh.
  pose proof (N_to_Q_nonneg away) as Ha.
  pose proof (N_to_Q_pos _ some_penalty) as Ht.
  pose proof (N_to_Q_add home away) as Hsum.
  unfold ratio. split.
  - apply Qle_shift_div_l; [exact Ht |]. rewrite Hsum. lra.
  - apply Qle_shift_div_r; [exact Ht |]. rewrite Hsum. lra.
Qed.

Lemma homeBias_ratio_balanced : home = away -> (ratio == 0)%Q.
Proof. intros ->. unfold ratio, Qdiv. ring. Qed.

End HomeBiasFormula.

Lemma homeBias_spec_range (h a : N) (b : Q) :
  homeBias_spec h a = Some b -> (-100 <= b /\ b <= 100)%Q.
Proof.
  intros Hb.
  assert (Hsome : (h + a)%N <> 0%N) by (apply homeBias_spec_defined; eauto).
  rewrite (homeBias_spec_value h a Hsome) in Hb.
  apply Some_inj in Hb; subst b.
  rewrite Qred_correct. apply homeBias_ratio_range, Hsome.
Qed.

Lemma homeBias_spec_balanced (h : N) (b : Q) :
  homeBias_spec h h = Some b -> (b == 0)%Q.
Proof.
  intros Hb.
  assert (Hsome : (h + h)%N <> 0%N) by (apply homeBias_spec_defined; eauto).
  rewrite (homeBias_spec_value h h Hsome) in Hb.
  apply Some_inj in Hb; subst b.
  rewrite Qred_correct. apply homeBias_ratio_balanced; [exact Hsome | reflexivity].
Qed.

Lemma populateRefereesList_appends (refereesList : list Card) :
  populateRefereesList refereesList
  = (refereesList ++ map createRefereeCard referees)%list.
Proof.
  unfold populateRefereesList. generalize referees as data.
  intros data; revert refereesList.
  induction data as [| r data IH]; intros children; simpl.
  - rewrite app_nil_r. reflexivity.
  - rewrite IH, <- app_assoc. reflexivity.
Qed.

(** The home and away splits behind the five [homeBias] figures. *)
Lemma homeBias_spec_fits_payload :
  map (fun '(r, (h, a)) => fitsSplit r h a) (combine referees payloadSplits)
  = [true; true; true; true; true].
Proof. vm_compute. reflexivity. Qed.

(** The payload flags home/away bias where the referee's split departs
    from the league's by 15 points or more (15.3 on the last record, the
    figure its description quotes), not where [homeBias] itself does. *)
Lemma home_away_flag_follows_league_deviation :
  map (fun '(r, (h, a)) =>
         (Qle_bool 15 (leagueDeviation h a), flaggedHomeAway r,
          (15 <=? abs (homeBias r))%float))
      (combine referees payloadSplits)
  = [ (false, false, true); (false, false, false); (false, false, true);
      (false, false, true); (true, true, true) ].
Proof. vm_compute. reflexivity. Qed.

(** ** The pattern detector *)

Lemma kindName_inj (k k' : Kind) : kindName k = kindName k' -> k = k'.
Proof. destruct k, k'; simpl; intros H; try reflexivity; discriminate H. Qed.

Lemma Kind_eq_dec (k k' : Kind) : {k = k'} + {k <> k'}.
Proof. decide equality. Qed.

Lemma allKinds_NoDup : NoDup allKinds.
Proof. unfold allKinds. repeat constructor; simpl; intuition discriminate. Qed.

Lemma allKinds_complete (k : Kind) : In k allKinds.
Proof. destruct k; simpl; tauto. Qed.

Section PatternDetectorFacts.

Variable otherRule : Kind -> Tally -> option (string * string).
Variable biasText : Q -> string.

(** A rule yields Observations of its own kind only. *)
Lemma ruleOf_type (k : Kind) (t : Tally) (o : Observation) :
  In o (ruleOf otherRule biasText k t) -> type o = kindName k.
Proof.
  unfold ruleOf. destruct k.
  - destruct (otherRule PENALTY_RATE t) as [[s d] |]; simpl; intros H;
      [ destruct H as [<- | []]; reflexivity | destruct H ].
  - destruct (homeBias_spec (tally_home t) (tally_away t)) as [bias |];
      simpl; [| intros H; destruct H ].
    destruct (homeAwaySeverity bias); simpl; intros H;
      [ destruct H as [<- | []]; reflexivity | destruct H ].
  - destruct (otherRule TIMING_PATTERN t) as [[s d] |]; simpl; intros H;
      [ destruct H as [<- | []]; reflexivity | destruct H ].
  - destruct (otherRule PENALTY_TYPE_BIAS t) as [[s d] |]; simpl; intros H;
      [ destruct H as [<- | []]; reflexivity | destruct H ].
Qed.

Lemma filter_own_kind (k : Kind) (t : Tally) :
  filter (fun o => String.eqb (type o) (kindName k)) (ruleOf otherRule biasText k t)
  = ruleOf otherRule biasText k t.
Proof.
  pose proof (ruleOf_type k t) as Htype.
  induction (ruleOf otherRule biasText k t) as [| o rest IH]; simpl; [ reflexivity |].
  rewrite (Htype o (or_introl eq_refl)), String.eqb_refl.
  rewrite IH; [ reflexivity |]. intros o' Ho'. apply Htype. right. exact Ho'.
Qed.

Lemma filter_other_kind (k k' : Kind) (t : Tally) :
  k <> k' ->
  filter (fun o => String.eqb (type o) (kindName k)) (ruleOf otherRule biasText k' t)
  = [].
Proof.
  intros Hk. pose proof (ruleOf_type k' t) as Htype.
  induction (ruleOf otherRule biasText k' t) as [| o rest IH]; simpl; [ reflexivity |].
  rewrite (Htype o (or_introl eq_refl)).
  destruct (String.eqb_spec (kindName k') (kindName k)) as [E | _].
  - apply kindName_inj in E. congruence.
  - apply IH. intros o' Ho'. apply Htype. right. exact Ho'.
Qed.

(** Among the findings of a run that evaluates every rule once, those of
    one kind are what the rule of that kind yields. *)
Lemma findings_of_kind (order : list Kind) (k : Kind) (t : Tally) :
  NoDup order ->
  filter (fun o => String.eqb (type o) (kindName k))
         (findings otherRule biasText order t)
  = if in_dec Kind_eq_dec k order then ruleOf otherRule biasText k t else [].
Proof.
  unfold findings. induction 1 as [| k' rest Hnotin _ IH]; simpl; [ reflexivity |].
  rewrite filter_app, IH.
  destruct (Kind_eq_dec k' k) as [-> | Hne].
  - rewrite filter_own_kind.
    destruct (in_dec Kind_eq_dec k rest) as [Hin | _]; [ contradiction |].
    apply app_nil_r.
  - rewrite filter_other_kind by congruence.
    destruct (in_dec Kind_eq_dec k rest); reflexivity.
Qed.

(** However a run orders the rules, the arranged findings are those of
    the run in the fixed order. *)
Lemma arrange_findings (order : list Kind) (t : Tally) :
  Permutation order allKinds ->
  arrange (findings otherRule biasText order t)
  = findings otherRule biasText allKinds t.
Proof.
  intros Hperm.
  assert (Hnodup : NoDup order).
  { apply (Permutation_NoDup (Permutation_sym Hperm)), allKinds_NoDup. }
  assert (Hall : forall k, In k order).
  { intros k. apply (Permutation_in k (Permutation_sym Hperm)), allKinds_complete. }
  unfold arrange. unfold findings at 2.
  apply flat_map_ext. intros k.
  rewrite (findings_of_kind order k t Hnodup).
  destruct (in_dec Kind_eq_dec k order) as [_ | Hout]; [ reflexivity |].
  contradiction (Hout (Hall k)).
Qed.

Lemma detect_canonical (order : list Kind) (t : Tally) :
  Permutation order allKinds ->
  detect otherRule biasText order t
  = if (tally_matches t <? minSample)%N then []
    else findings otherRule biasText allKinds t.
Proof.
  intros Hperm. unfold detect. rewrite (arrange_findings order t Hperm). reflexivity.
Qed.

(** The findings in the fixed order follow the order of the kinds. *)
Lemma findings_in_kind_order (t : Tally) :
  Subsequence (map type (findings otherRule biasText allKinds t)) kindOrder.
Proof.
  unfold findings, allKinds, ruleOf. cbn [flat_map].
  destruct (otherRule PENALTY_RATE t) as [[s1 d1] |];
    destruct (homeBias_spec (tally_home t) (tally_away t)) as [bias |];
    try destruct (homeAwaySeverity bias);
    destruct (otherRule TIMING_PATTERN t) as [[s3 d3] |];
    destruct (otherRule PENALTY_TYPE_BIAS t) as [[s4 d4] |];
    apply subsequenceb_sound; reflexivity.
Qed.



End PatternDetectorFacts.

(** ** The properties of the specification on the payload *)

(** C1 fails on the payload: the first record has a home bias of 20.0,
    at least 15 points, and no HOME_AWAY_BIAS observation. *)
Lemma home_away_rule_fails_on_payload :
  ~ Forall (fun r =>
              (15 <=? abs (homeBias r))%float = true ->
              exists o, In o (observations r)
                        /\ type o = "HOME_AWAY_BIAS"
                        /\ severity o =
                             if (abs (homeBias r) <=? 25)%float
                             then "MEDIUM" else "HIGH")
           referees.
Proof.
  intros H. apply Forall_inv in H.
  destruct (H eq_refl) as [o [Ho [Ht _]]].
  simpl in Ho. destruct Ho as [<- | []]. discriminate Ht.
Qed.

(** The one HOME_AWAY_BIAS observation of the payload sits on a record
    whose home bias is beyond 25 points, with severity MEDIUM. *)
Lemma home_away_observation_medium_above_25 :
  ofKind "HOME_AWAY_BIAS" (record 4)
  = [ {| type := "HOME_AWAY_BIAS"; severity := "MEDIUM";
         description :=
           "Shows significant bias AGAINST away team - calls 15.3% more penalties than league average" |} ]
  /\ (25 <? abs (homeBias (record 4)))%float = true.
Proof. split; vm_compute; reflexivity. Qed.

(** C1, amended. A HOME_AWAY_BIAS observation occurs in the payload only
    on a record whose home bias is at least 15 points in absolute value,
    and its severity is MEDIUM. *)
Theorem home_away_observation_only_beyond_threshold (r : Referee) (o : Observation) :
  In r referees -> In o (observations r) -> type o = "HOME_AWAY_BIAS" ->
  (15 <=? abs (homeBias r))%float = true /\ severity o = "MEDIUM".
Proof.
  intros Hr Ho Ht. unfold referees in Hr. simpl in Hr.
  repeat (destruct Hr as [<- | Hr]); try contradiction;
    simpl in Ho; repeat (destruct Ho as [<- | Ho]); try contradiction;
    simpl in Ht; try discriminate Ht.
  split; reflexivity.
Qed.

Lemma home_away_observation_only_beyond_threshold_witness :
  (15 <=? abs (-33.3))%float = true /\ "MEDIUM" = "MEDIUM".
Proof.
  apply (home_away_observation_only_beyond_threshold (record 4)
           {| type := "HOME_AWAY_BIAS"; severity := "MEDIUM";
              description :=
                "Shows significant bias AGAINST away team - calls 15.3% more penalties than league average" |}).
  - do 4 right; left; reflexivity.
  - left; reflexivity.
  - reflexivity.
Defined.

(** C2 fails on the payload: the third record has one match, fewer than
    the minimum sample size of 3, and carries a PENALTY_RATE observation,
    a rating against the league average. *)
Lemma small_sample_still_rated :
  ~ (forall r, In r referees ->
               (matches r <? minSampleSize)%float = true ->
               ofKind "PENALTY_RATE" r = []).
Proof.
  intros H. specialize (H (record 2)).
  assert (Hin : In (record 2) referees) by (do 2 right; left; reflexivity).
  specialize (H Hin eq_refl). vm_compute in H. discriminate H.
Qed.

(** C2, amended. Every record of the payload with fewer than 3 matches
    reports its raw counts (one match, five penalties) and carries one
    observation, a PENALTY_RATE of severity MEDIUM: the payload applies no
    minimum sample size. *)
Theorem small_sample_reports_counts (r : Referee) :
  In r referees -> (matches r <? minSampleSize)%float = true ->
  float_to_N (matches r) = Some 1%N
  /\ float_to_N (penalties r) = Some 5%N
  /\ map type (observations r) = ["PENALTY_RATE"]
  /\ map severity (observations r) = ["MEDIUM"].
Proof.
  intros Hr Hm. unfold referees in Hr. simpl in Hr.
  repeat (destruct Hr as [<- | Hr]); try contradiction;
    vm_compute in Hm; try discriminate Hm;
    repeat split; vm_compute; reflexivity.
Qed.

Lemma small_sample_reports_counts_witness :
  float_to_N (matches (record 3)) = Some 1%N
  /\ float_to_N (penalties (record 3)) = Some 5%N
  /\ map type (observations (record 3)) = ["PENALTY_RATE"]
  /\ map severity (observations (record 3)) = ["MEDIUM"].
Proof.
  apply (small_sample_reports_counts (record 3)).
  - do 3 right; left; reflexivity.
  - vm_compute; reflexivity.
Defined.



(** C4. On every record of the payload [avgPenalties] is [penalties]
    divided by [matches]: it is the double the script's division yields,
    and its exact value differs from the exact quotient of the two counts
    by at most the tolerance (one billionth). *)
Theorem avgPenalties_is_quotient :
  Forall (fun r =>
            (avgPenalties r =? penalties r / matches r)%float = true
            /\ exists e, avgPenalties_error r = Some e /\ (e <= tolerance)%Q)
         referees.
Proof.
  each_record; (split; [ vm_compute; reflexivity | ]);
    (eexists; split; [ vm_compute; reflexivity | ]);
    apply Qle_bool_imp_le; vm_compute; reflexivity.
Qed.

(** C5. On every record of the payload the kinds of the observations
    follow the fixed order PENALTY_RATE, HOME_AWAY_BIAS, TIMING_PATTERN,
    PENALTY_TYPE_BIAS, and so do the Observations the Pattern Detector
    of the specification hands out.  Two runs of the analysis on the same
    input give the same Observations in the same order, and the same
    record, in whatever order each run evaluates the four rules. *)
Theorem observations_follow_kind_order
    (otherRule : Kind -> Tally -> option (string * string))
    (biasText : Q -> string) (t : Tally) (run1 run2 : list Kind) :
  Permutation run1 allKinds ->
  Permutation run2 allKinds ->
  Forall (fun r => Subsequence (map type (observations r)) kindOrder) referees
  /\ Subsequence (map type (detect otherRule biasText run1 t)) kindOrder
  /\ detect otherRule biasText run1 t = detect otherRule biasText run2 t
  /\ analyse otherRule biasText run1 t = analyse otherRule biasText run2 t.
Proof.
  intros H1 H2.
  assert (Hsame : detect otherRule biasText run1 t
                  = detect otherRule biasText run2 t).
  { rewrite (detect_canonical otherRule biasText run1 t H1).
    rewrite (detect_canonical otherRule biasText run2 t H2). reflexivity. }
  split; [| split; [| split ]].
  - each_record; apply subsequenceb_sound; vm_compute; reflexivity.
  - rewrite (detect_canonical otherRule biasText run1 t H1).
    destruct (tally_matches t <? minSample)%N.
    + apply Subsequence_nil.
    + apply findings_in_kind_order.
  - exact Hsame.
  - unfold analyse. rewrite Hsame. reflexivity.
Qed.

Lemma observations_follow_kind_order_witness :
  Forall (fun r => Subsequence (map type (observations r)) kindOrder) referees
  /\ Subsequence
       (map type (detect timingOnly plainBiasText allKinds exampleTally)) kindOrder
  /\ detect timingOnly plainBiasText allKinds exampleTally
     = detect timingOnly plainBiasText (rev allKinds) exampleTally
  /\ analyse timingOnly plainBiasText allKinds exampleTally
     = analyse timingOnly plainBiasText (rev allKinds) exampleTally.
Proof.
  apply (observations_follow_kind_order timingOnly plainBiasText exampleTally
           allKinds (rev allKinds)).
  - apply Permutation_refl.
  - apply Permutation_sym, Permutation_rev.
Defined.

(** C6 fails on the payload: its records do not have exactly the five
    properties of the specification's shape; each has [id] and [name] as
    well. *)
Lemma payload_records_have_more_than_spec_shape :
  ~ Forall (fun v => forall k, In k (keys v) <-> In k specShape)
           (elements sampleRefereeData).
Proof.
  intros H. apply Forall_inv in H.
  destruct (H "id") as [Hid _].
  assert (Hin : In "id" specShape) by (apply Hid; left; reflexivity).
  simpl in Hin. repeat (destruct Hin as [Hin | Hin]; [discriminate Hin |]).
  exact Hin.
Qed.

(** C6, amended. The payload is an array; every element is an object with
    exactly the properties id, name, matches, penalties, avgPenalties,
    homeBias, observations, in that order; id, matches, penalties,
    avgPenalties and homeBias are numbers, name is a string, and
    observations is an array of objects with exactly the string
    properties type, severity, description.  The identifiers are pairwise
    different, and homeBias is signed: it is negative on the last record. *)
Theorem payload_shape :
  isArray sampleRefereeData = true
  /\ Forall refereeShaped (elements sampleRefereeData)
  /\ NoDup (map (fun r => float_to_Q (id r)) referees)
  /\ (homeBias (record 4) <? 0)%float = true.
Proof.
  split; [reflexivity |]. split; [| split].
  - unfold sampleRefereeData, elements.
    repeat first [ apply Forall_nil | apply Forall_cons ];
      unfold refereeShaped;
      repeat (split; [ reflexivity | ]);
      simpl;
      repeat first [ apply Forall_nil | apply Forall_cons ];
      unfold observationShaped; repeat split; reflexivity.
  - vm_compute.
    repeat (constructor; [ simpl; intuition discriminate | ]).
    constructor.
  - vm_compute; reflexivity.
Qed.

(** C7. No record of the payload has zero matches: [matches] is a positive
    whole number on every record, so the quotient [penalties / matches]
    is a finite number for each without any test for zero. *)
Theorem every_record_has_matches :
  Forall (fun r =>
            (0 <? matches r)%float = true
            /\ (matches r =? 0)%float = false
            /\ (exists m, float_to_N (matches r) = Some m /\ m <> 0%N)
            /\ is_finite (penalties r / matches r)%float = true)
         referees.
Proof.
  each_record; (split; [ vm_compute; reflexivity | ]);
    (split; [ vm_compute; reflexivity | ]);
    (split; [ eexists; split; [ vm_compute; reflexivity | discriminate ]
            | vm_compute; reflexivity ]).
Qed.

(** C8 fails for a referee with matches and without penalties: the
    record is present, the home and away counts are equal, and the home
    bias has no value, let alone the value 0. *)
Lemma homeBias_has_no_value_without_penalties :
  ~ (forall (otherRule : Kind -> Tally -> option (string * string))
            (biasText : Q -> string) (t : Tally) (r : Report),
       analyse otherRule biasText allKinds t = Some r ->
       exists b : Q,
         report_homeBias r = Some b
         /\ (-100 <= b /\ b <= 100)%Q
         /\ (tally_home t = tally_away t -> (b == 0)%Q)).
Proof.
  intros H.
  destruct (H timingOnly plainBiasText quietTally _ eq_refl) as [b [Hb _]].
  discriminate Hb.
Qed.

(** In the script's double arithmetic the formula gives NaN there, which
    is neither within the interval nor equal to 0. *)
Lemma homeBias_double_without_penalties :
  let bias := (100 * (0 - 0) / (0 + 0))%float in
  is_nan bias = true
  /\ (-100 <=? bias)%float = false
  /\ (bias <=? 100)%float = false
  /\ (bias =? 0)%float = false.
Proof. repeat split; vm_compute; reflexivity. Qed.

(** C8, amended. On every record of the payload [homeBias] lies between
    -100 and 100; and for a referee with at least one penalty the formula
    of the specification has a value, which lies in that interval and is
    exactly 0 when the home and away counts are equal. *)
Theorem homeBias_bounded_and_neutral (home away : N) :
  (home + away)%N <> 0%N ->
  Forall (fun r => (-100 <=? homeBias r)%float = true
                   /\ (homeBias r <=? 100)%float = true) referees
  /\ exists b : Q,
       homeBias_spec home away = Some b
       /\ (-100 <= b /\ b <= 100)%Q
       /\ (home = away -> (b == 0)%Q).
Proof.
  intros Hsome. split.
  - each_record; split; vm_compute; reflexivity.
  - destruct (proj1 (homeBias_spec_defined home away) Hsome) as [b Hb].
    exists b. split; [ exact Hb |]. split.
    + eapply homeBias_spec_range; eassumption.
    + intros ->. eapply homeBias_spec_balanced; eassumption.
Qed.

Lemma homeBias_bounded_and_neutral_witness :
  Forall (fun r => (-100 <=? homeBias r)%float = true
                   /\ (homeBias r <=? 100)%float = true) referees
  /\ exists b : Q,
       homeBias_spec 3 3 = Some b
       /\ (-100 <= b /\ b <= 100)%Q
       /\ (3%N = 3%N -> (b == 0)%Q).
Proof.
  apply (homeBias_bounded_and_neutral 3 3). discriminate.
Defined.

(** ** The severity lookup *)

Lemma getSeverityEmoji_table :
  getSeverityEmoji "LOW" = str "🟡"
  /\ getSeverityEmoji "MEDIUM" = str "🟠"
  /\ getSeverityEmoji "HIGH" = str "🔴"
  /\ getSeverityEmoji "CRITICAL" = str "⚠️".
Proof. repeat split; reflexivity. Qed.

Lemma ownProperty_emojis_other (s : string) :
  ~ In s severities ->
  ownProperty s [ ("LOW", str "🟡"); ("MEDIUM", str "🟠");
                  ("HIGH", str "🔴"); ("CRITICAL", str "⚠️") ] = None.
Proof.
  intros Hs. unfold severities in Hs. simpl in Hs. simpl.
  destruct (String.eqb_spec s "LOW") as [-> | _]; [ tauto |].
  destruct (String.eqb_spec s "MEDIUM") as [-> | _]; [ tauto |].
  destruct (String.eqb_spec s "HIGH") as [-> | _]; [ tauto |].
  destruct (String.eqb_spec s "CRITICAL") as [-> | _]; [ tauto |].
  reflexivity.
Qed.

(** Outside the table the lookup yields the fallback, unless the string
    names a property of [Object.prototype]: then it yields that inherited
    built-in. *)
Lemma getSeverityEmoji_other (s : string) :
  ~ In s severities ->
  getSeverityEmoji s = if inherited s then VNative s else defaultEmoji.
Proof.
  intros Hs. unfold getSeverityEmoji, emojis, get.
  rewrite (ownProperty_emojis_other s Hs).
  destruct (inherited s); reflexivity.
Qed.

(** The lookup never fails and never yields [undefined]. *)
Lemma getSeverityEmoji_defined (s : string) :
  getSeverityEmoji s <> VUndefined.
Proof.
  unfold getSeverityEmoji, or_else.
  destruct (truthy (get emojis s)) eqn:E.
  - intros H. rewrite H in E. discriminate E.
  - discriminate.
Qed.

(** C9 at the string "constructor": it is none of the four severities,
    and the lookup yields the inherited [constructor] of the object
    literal, not the fallback emoji. *)
Theorem getSeverityEmoji_inherited_name :
  ~ In "constructor" severities
  /\ getSeverityEmoji "constructor" = VNative "constructor"
  /\ getSeverityEmoji "constructor" <> defaultEmoji.
Proof.
  split; [| split].
  - simpl. intuition discriminate.
  - reflexivity.
  - discriminate.
Qed.

(** ** The colour of the home-bias figure *)

Lemma SF_minus_15 : Prim2SF (-15) = S754_finite true 8444249301319680 (-49).
Proof. reflexivity. Qed.

Lemma SF_plus_15 : Prim2SF 15 = S754_finite false 8444249301319680 (-49).
Proof. reflexivity. Qed.

(** A double below -15 is not above 15. *)
Lemma below_minus_15_not_above_15 (h : float) :
  (h <? -15)%float = true -> (15 <? h)%float = false.
Proof.
  rewrite !ltb_spec, SF_minus_15, SF_plus_15.
  destruct (Prim2SF h) as [s | s | | s m e]; simpl;
    try discriminate; destruct s; simpl; try discriminate; reflexivity.
Qed.

Lemma colours_differ : red <> blue /\ red <> green /\ blue <> green.
Proof. repeat split; discriminate. Qed.

(** C10. The card's bias colour is red exactly when [homeBias > 15] and
    blue exactly when [homeBias < -15], both comparisons strict; a home
    bias of exactly 15 or exactly -15 gets the neutral green, although its
    absolute value reaches the inclusive threshold of 15. *)
Theorem bias_colour_uses_strict_comparisons (referee : Referee) :
  (biasColor (createRefereeCard referee) = red
     <-> (15 <? homeBias referee)%float = true)
  /\ (biasColor (createRefereeCard referee) = blue
     <-> (homeBias referee <? -15)%float = true)
  /\ (homeBias referee = 15%float \/ homeBias referee = (-15)%float ->
       biasColor (createRefereeCard referee) = green
       /\ (15 <=? abs (homeBias referee))%float = true).
Proof.
  destruct colours_differ as [Hrb [Hrg Hbg]].
  simpl. unfold cardBiasColor. split; [| split].
  - destruct (15 <? homeBias referee)%float.
    + tauto.
    + destruct (homeBias referee <? -15)%float; split; intros H;
        try discriminate H; congruence.
  - destruct (homeBias referee <? -15)%float eqn:Hlow.
    + rewrite (below_minus_15_not_above_15 _ Hlow). tauto.
    + destruct (15 <? homeBias referee)%float; split; intros H;
        try discriminate H; congruence.
  - intros [-> | ->]; split; reflexivity.
Qed.

Lemma bias_colour_uses_strict_comparisons_witness :
  biasColor (createRefereeCard (mkReferee 1 "edge" 4 10 2.5 15 [])) = green
  /\ (15 <=? abs 15)%float = true.
Proof.
  apply (bias_colour_uses_strict_comparisons (mkReferee 1 "edge" 4 10 2.5 15 [])).
  left; reflexivity.
Defined.

(** ** Strings and doubles: facts the card builder relies on *)

Lemma startsWith_spec (t s : string) :
  startsWith s t = true <-> exists post, s = (t ++ post)%string.
Proof.
  revert s; induction t as [| b t IH]; intros s; simpl.
  - split; [ intros _; exists s; reflexivity | reflexivity ].
  - destruct s as [| a s]; simpl.
    + split; [ discriminate | intros [post H]; discriminate H ].
    + rewrite andb_true_iff, Ascii.eqb_eq, IH. split.
      * intros [-> [post ->]]. exists post; reflexivity.
      * intros [post H]. injection H as -> ->. split; [ reflexivity | eauto ].
Qed.

(** [includes] is the search for a substring. *)
Lemma includes_spec (s t : string) :
  includes s t = true <-> exists pre post, s = (pre ++ t ++ post)%string.
Proof.
  induction s as [| a s IH].
  - simpl. rewrite orb_false_r, startsWith_spec. split.
    + intros [post H]. exists ""%string, post. exact H.
    + intros [pre [post H]]. destruct pre as [| c pre]; [| discriminate H].
      exists post. exact H.
  - simpl. rewrite orb_true_iff, startsWith_spec, IH. split.
    + intros [[post H] | [pre [post H]]].
      * exists ""%string, post. exact H.
      * exists (String a pre), post. simpl. rewrite H. reflexivity.
    + intros [pre [post H]]. destruct pre as [| c pre]; simpl in H.
      * left. exists post. exact H.
      * right. injection H as _ H. exists pre, post. exact H.
Qed.

Lemma includes_empty (s : string) : includes s "" = true.
Proof. destruct s; reflexivity. Qed.

Lemma SF_3_5 : Prim2SF 3.5 = S754_finite false 7881299347898368 (-51).
Proof. reflexivity. Qed.

Lemma SF_2 : Prim2SF 2.0 = S754_finite false 4503599627370496 (-51).
Proof. reflexivity. Qed.

Lemma SF_0 : Prim2SF 0 = S754_zero false.
Proof. reflexivity. Qed.

(** A double above 3.5 is not below 2. *)
Lemma above_3_5_not_below_2 (a : float) :
  (3.5 <? a)%float = true -> (a <? 2.0)%float = false.
Proof.
  rewrite !ltb_spec, SF_3_5, SF_2.
  destruct (Prim2SF a) as [s | s | | s m e]; unfold SFltb, SFcompare;
    [ intros H; discriminate H
    | destruct s; first [ reflexivity | intros H; discriminate H ]
    | intros H; discriminate H
    | ].
  destruct s; [ intros H; discriminate H |].
  rewrite (Z.compare_antisym (-51) e), !Pos.compare_cont_spec.
  destruct (-51 ?= e)%Z; cbv [CompOpp]; intros H;
    try discriminate H; try reflexivity.
  destruct (Pos.compare_spec 7881299347898368 m) as [E1 | E1 | E1];
    cbv [Pos.switch_Eq] in H; try discriminate H.
  destruct (Pos.compare_spec m 4503599627370496) as [E2 | E2 | E2];
    cbv [Pos.switch_Eq]; try reflexivity.
  pose proof (Pos.lt_trans _ _ _ E1 E2) as E.
  vm_compute in E. discriminate E.
Qed.

(** A double above 15 is positive; one below -15 is not. *)
Lemma above_15_positive (h : float) :
  (15 <? h)%float = true -> (0 <? h)%float = true.
Proof.
  rewrite !ltb_spec, SF_plus_15, SF_0.
  destruct (Prim2SF h) as [s | s | | s m e]; unfold SFltb, SFcompare;
    try discriminate; destruct s; first [ reflexivity | intros H; discriminate H ].
Qed.

Lemma below_minus_15_not_positive (h : float) :
  (h <? -15)%float = true -> (0 <? h)%float = false.
Proof.
  rewrite !ltb_spec, SF_minus_15, SF_0.
  destruct (Prim2SF h) as [s | s | | s m e]; unfold SFltb, SFcompare;
    try discriminate; destruct s; first [ reflexivity | intros H; discriminate H ].
Qed.

(** ** The classes and the filter attribute of a card *)

(** X1. The class list of a card names no class twice and starts with
    referee-card; the card has the class has-bias exactly when the
    referee has observations, strict exactly when the average is above
    3.5, lenient exactly when it is below 2 (so never for an average that
    is NaN), and never strict and lenient together. *)
Theorem card_classes (referee : Referee) :
  let c := createRefereeCard referee in
  NoDup (classList c)
  /\ hd_error (classList c) = Some "referee-card"
  /\ classList_contains (classList c) "has-bias"
     = negb (Nat.eqb (List.length (observations referee)) 0)
  /\ classList_contains (classList c) "strict" = (3.5 <? avgPenalties referee)%float
  /\ classList_contains (classList c) "lenient" = (avgPenalties referee <? 2.0)%float
  /\ (classList_contains (classList c) "strict"
      && classList_contains (classList c) "lenient")%bool = false.
Proof.
  cbv zeta. simpl classList. unfold cardClasses, hasObservations.
  pose proof (above_3_5_not_below_2 (avgPenalties referee)) as Hex.
  destruct (observations referee) as [| o os]; simpl List.length; simpl Nat.ltb;
    destruct (3.5 <? avgPenalties referee)%float;
    destruct (avgPenalties referee <? 2.0)%float;
    try (specialize (Hex eq_refl); discriminate Hex);
    (split; [ repeat constructor; simpl; intuition discriminate
            | repeat split; reflexivity ]).
Qed.

(** X2. The [data-filter] attribute of a card agrees with its classes:
    the listener's test with the filter bias, strict or lenient succeeds
    exactly on the cards that have the class has-bias, strict or lenient;
    the two are written by different conditionals (an else-if for the
    classes, separate ifs for the attribute). *)
Theorem card_filter_agrees_with_classes (referee : Referee) :
  let c := createRefereeCard referee in
  matchesFilter (Some "bias") c = classList_contains (classList c) "has-bias"
  /\ matchesFilter (Some "strict") c = classList_contains (classList c) "strict"
  /\ matchesFilter (Some "lenient") c = classList_contains (classList c) "lenient".
Proof.
  cbv zeta. unfold matchesFilter. simpl classList. simpl dataset_filter.
  unfold cardClasses, cardFilter, hasObservations.
  pose proof (above_3_5_not_below_2 (avgPenalties referee)) as Hex.
  destruct (observations referee) as [| o os]; simpl List.length; simpl Nat.ltb;
    destruct (3.5 <? avgPenalties referee)%float;
    destruct (avgPenalties referee <? 2.0)%float;
    try (specialize (Hex eq_refl); discriminate Hex);
    repeat split; reflexivity.
Qed.

(** X3. The sign and the colour of the home-bias figure go together: the
    plus sign is written exactly when the home bias is above 0, always on
    a red figure and never on a blue one. *)
Theorem bias_sign_follows_colour (referee : Referee) :
  let c := createRefereeCard referee in
  (biasSign c = "+" <-> (0 <? homeBias referee)%float = true)
  /\ (biasColor c = red -> biasSign c = "+")
  /\ (biasColor c = blue -> biasSign c = "").
Proof.
  cbv zeta. simpl. unfold cardBiasColor.
  pose proof (above_15_positive (homeBias referee)) as Hpos.
  pose proof (below_minus_15_not_positive (homeBias referee)) as Hneg.
  destruct colours_differ as [Hrb [Hrg Hbg]].
  split; [| split].
  - destruct (0 <? homeBias referee)%float; split; intros H;
      try reflexivity; discriminate H.
  - destruct (15 <? homeBias referee)%float.
    + intros _. rewrite (Hpos eq_refl). reflexivity.
    + destruct (homeBias referee <? -15)%float; intros H; congruence.
  - destruct (15 <? homeBias referee)%float; [ intros H; congruence |].
    destruct (homeBias referee <? -15)%float.
    + intros _. rewrite (Hneg eq_refl). reflexivity.
    + intros H; congruence.
Qed.

(** ** The filter buttons *)

Lemma classList_contains_remove (l : list string) (c : string) :
  classList_contains (classList_remove l c) c = false.
Proof.
  unfold classList_contains, classList_remove.
  induction l as [| x l IH]; simpl; [ reflexivity |].
  destruct (String.eqb_spec x c) as [-> | Hx]; simpl; [ exact IH |].
  rewrite IH, orb_false_r. apply String.eqb_neq. congruence.
Qed.

Lemma classList_contains_add (l : list string) (c : string) :
  classList_contains (classList_add l c) c = true.
Proof.
  unfold classList_add. destruct (classList_contains l c) eqn:E; [ exact E |].
  unfold classList_contains. rewrite existsb_app. simpl.
  rewrite String.eqb_refl, orb_true_r. reflexivity.
Qed.

Lemma classList_remove_add (l : list string) (c : string) :
  classList_remove (classList_add l c) c = classList_remove l c.
Proof.
  unfold classList_add. destruct (classList_contains l c); [ reflexivity |].
  unfold classList_remove. rewrite filter_app. simpl.
  rewrite String.eqb_refl. simpl. apply app_nil_r.
Qed.

Lemma classList_remove_idem (l : list string) (c : string) :
  classList_remove (classList_remove l c) c = classList_remove l c.
Proof.
  unfold classList_remove. induction l as [| x l IH]; simpl; [ reflexivity |].
  destruct (String.eqb x c) eqn:E; simpl; [ exact IH |].
  rewrite E. simpl. rewrite IH. reflexivity.
Qed.

(** Adding or removing a class leaves the other classes alone. *)
Lemma classList_contains_remove_other (l : list string) (c d : string) :
  d <> c -> classList_contains (classList_remove l c) d = classList_contains l d.
Proof.
  intros Hd. unfold classList_contains, classList_remove.
  induction l as [| x l IH]; simpl; [ reflexivity |].
  destruct (String.eqb_spec x c) as [-> | Hx]; simpl.
  - rewrite IH. destruct (String.eqb_spec d c); [ contradiction | reflexivity ].
  - rewrite IH. reflexivity.
Qed.

Lemma classList_contains_add_other (l : list string) (c d : string) :
  d <> c -> classList_contains (classList_add l c) d = classList_contains l d.
Proof.
  intros Hd. unfold classList_add. destruct (classList_contains l c); [ reflexivity |].
  unfold classList_contains. rewrite existsb_app. simpl.
  destruct (String.eqb_spec d c); [ contradiction |].
  rewrite !orb_false_r. reflexivity.
Qed.

Lemma deactivate_activate (b : Button) : deactivate (activate b) = deactivate b.
Proof. unfold deactivate, activate. simpl. rewrite classList_remove_add. reflexivity. Qed.

Lemma deactivate_idem (b : Button) : deactivate (deactivate b) = deactivate b.
Proof. unfold deactivate. simpl. rewrite classList_remove_idem. reflexivity. Qed.

Lemma nth_error_updateAt {A} (f : A -> A) (l : list A) (i j : nat) :
  nth_error (updateAt i f l) j
  = if Nat.eqb i j then option_map f (nth_error l j) else nth_error l j.
Proof.
  revert i j; induction l as [| x l IH]; intros [| i] [| j]; simpl;
    try reflexivity.
  - destruct (Nat.eqb i j); reflexivity.
  - apply IH.
Qed.

Lemma map_updateAt {A B} (g : A -> B) (f : A -> A) (l : list A) (i : nat) :
  (forall x, g (f x) = g x) -> map g (updateAt i f l) = map g l.
Proof.
  intros Hg. revert i; induction l as [| x l IH]; intros [| i]; simpl;
    try reflexivity.
  - rewrite Hg. reflexivity.
  - rewrite IH. reflexivity.
Qed.

Lemma length_updateAt {A} (f : A -> A) (l : list A) (i : nat) :
  List.length (updateAt i f l) = List.length l.
Proof.
  revert i; induction l as [| x l IH]; intros [| i]; simpl; try reflexivity.
  rewrite IH. reflexivity.
Qed.

Lemma map_deactivate_idem (l : list Button) :
  map deactivate (map deactivate l) = map deactivate l.
Proof.
  rewrite map_map. apply map_ext. exact deactivate_idem.
Qed.

(** On a card with its attribute the test is [matchesFilter] and never
    raises. *)
Lemma testCard_built (filter : option string) (c : Card) :
  testCard filter (builtCard c) = Some (matchesFilter filter c).
Proof.
  unfold testCard, matchesFilter. simpl nodeFilter.
  destruct (match filter with Some s => String.eqb s "all" | None => false end);
    reflexivity.
Qed.

Lemma testCard_with_filter (filter : option string) (n : CardNode) :
  nodeFilter n <> None -> exists shown, testCard filter n = Some shown.
Proof.
  intros Hn. unfold testCard.
  destruct (match filter with Some s => String.eqb s "all" | None => false end);
    [ eauto |].
  destruct (nodeFilter n); [ eauto | contradiction ].
Qed.

(** The loop keeps the cards and their order. *)
Lemma showCards_card (filter : option string) (cards : list CardElement) :
  map card (fst (showCards filter cards)) = map card cards.
Proof.
  induction cards as [| c rest IH]; simpl; [ reflexivity |].
  destruct (testCard filter (card c)); simpl; [ rewrite IH |]; reflexivity.
Qed.

(** When the test raises on no card, the loop sets every display. *)
Lemma showCards_all (filter : option string) (shown : CardElement -> bool)
    (cards : list CardElement) :
  Forall (fun c => testCard filter (card c) = Some (shown c)) cards ->
  showCards filter cards = (map (fun c => setDisplay (shown c) c) cards, true).
Proof.
  induction 1 as [| c rest Hc _ IH]; simpl; [ reflexivity |].
  rewrite Hc, IH. reflexivity.
Qed.

(** A loop that runs to its end forgets what an earlier loop did. *)
Lemma showCards_after (f g : option string) (cards : list CardElement) :
  snd (showCards f cards) = true ->
  showCards f (fst (showCards g cards)) = showCards f cards.
Proof.
  induction cards as [| c rest IH]; simpl; [ reflexivity |].
  destruct (testCard g (card c)) as [shown |]; simpl; [| reflexivity ].
  destruct (testCard f (card c)) as [shown' |]; simpl; [| discriminate ].
  intros Hrest. rewrite (IH Hrest). reflexivity.
Qed.

(** The card at position [k] is reached when the cards before it have
    their attribute. *)
Lemma showCards_nth (filter : option string) (cards : list CardElement)
    (k : nat) (c : CardElement) (shown : bool) :
  Forall (fun e => nodeFilter (card e) <> None) (firstn k cards) ->
  nth_error cards k = Some c ->
  testCard filter (card c) = Some shown ->
  nth_error (fst (showCards filter cards)) k = Some (setDisplay shown c).
Proof.
  revert cards; induction k as [| k IH]; intros [| e rest] Hpre Hk Hc;
    simpl in *; try discriminate.
  - injection Hk as ->. rewrite Hc. reflexivity.
  - apply Forall_cons_iff in Hpre. destruct Hpre as [He Hpre].
    destruct (testCard_with_filter filter (card e) He) as [s Hs].
    rewrite Hs. simpl. apply IH; assumption.
Qed.


(** The buttons a click leaves behind, for a click that hits a button. *)
Lemma click_buttons (i : nat) (p : Page) :
  (i < List.length (filterButtons p))%nat ->
  filterButtons (click i p)
  = updateAt i activate (map deactivate (filterButtons p)).
Proof.
  intros Hi. unfold click.
  destruct (nth_error (filterButtons p) i) eqn:E; [ reflexivity |].
  apply nth_error_None in E. lia.
Qed.

(** X4. After a click on a filter button exactly that button has the
    class active, whatever classes the buttons had before. *)
Theorem click_activates_only_clicked (p : Page) (i j : nat) :
  (i < List.length (filterButtons p))%nat ->
  (j < List.length (filterButtons p))%nat ->
  option_map isActive (nth_error (filterButtons (click i p)) j)
  = Some (Nat.eqb i j).
Proof.
  intros Hi Hj. rewrite (click_buttons i p Hi), nth_error_updateAt.
  rewrite nth_error_map.
  destruct (nth_error (filterButtons p) j) as [b |] eqn:E.
  - destruct (Nat.eqb i j); simpl; f_equal; unfold isActive; simpl.
    + apply classList_contains_add.
    + apply classList_contains_remove.
  - apply nth_error_None in E. lia.
Qed.

Lemma click_activates_only_clicked_witness :
  option_map isActive
    (nth_error
       (filterButtons
          (click 1 {| filterButtons :=
                        [ mkButton (Some "all") ["filter-btn"; "active"];
                          mkButton (Some "strict") ["filter-btn"] ];
                      refereeCards := [] |})) 0)
  = Some false.
Proof.
  apply (click_activates_only_clicked
           {| filterButtons :=
                [ mkButton (Some "all") ["filter-btn"; "active"];
                  mkButton (Some "strict") ["filter-btn"] ];
              refereeCards := [] |} 1 0); simpl; lia.
Defined.

(** X5. A click never adds, removes or reorders buttons or cards: the
    buttons keep their filters and every class other than active, and
    the cards stay the same cards in the same order; only the class
    active and the display of the cards change. *)
Theorem click_keeps_buttons_and_cards (p : Page) (i : nat) :
  map button_filter (filterButtons (click i p)) = map button_filter (filterButtons p)
  /\ map card (refereeCards (click i p)) = map card (refereeCards p)
  /\ forall c : string, c <> "active" ->
       map (fun b => classList_contains (button_classList b) c)
           (filterButtons (click i p))
       = map (fun b => classList_contains (button_classList b) c)
             (filterButtons p).
Proof.
  unfold click. destruct (nth_error (filterButtons p) i) as [b |]; simpl.
  - split; [| split].
    + rewrite map_updateAt by reflexivity. rewrite map_map. reflexivity.
    + apply showCards_card.
    + intros c Hc. rewrite map_updateAt.
      * rewrite map_map. apply map_ext. intros x. simpl.
        apply classList_contains_remove_other, Hc.
      * intros x. simpl. apply classList_contains_add_other, Hc.
  - repeat split; reflexivity.
Qed.

(** X6. Clicks do not accumulate: when the listener of a button returns
    on a page, the page it leaves behind is the same whether or not
    another filter button was clicked before. *)
Theorem click_last_wins (p : Page) (i j : nat) :
  (j < List.length (filterButtons p))%nat ->
  clickCompletes j p = true ->
  click j (click i p) = click j p.
Proof.
  intros Hj Hdone.
  destruct (nth_error (filterButtons p) j) as [bj |] eqn:Ej;
    [| apply nth_error_None in Ej; lia ].
  unfold clickCompletes in Hdone. rewrite Ej in Hdone.
  unfold click at 2.
  destruct (nth_error (filterButtons p) i) as [bi |] eqn:Ei; [| reflexivity ].
  unfold click. simpl filterButtons. simpl refereeCards.
  rewrite nth_error_updateAt, nth_error_map, Ej. simpl option_map.
  rewrite (map_updateAt deactivate activate _ i deactivate_activate).
  rewrite map_deactivate_idem.
  destruct (Nat.eqb i j); simpl button_filter;
    rewrite (showCards_after _ _ _ Hdone); reflexivity.
Qed.

Lemma click_last_wins_witness :
  click 0 (click 1 {| filterButtons :=
                        [ mkButton (Some "all") ["active"];
                          mkButton (Some "strict") [] ];
                      refereeCards := [ mkCardElement (createRefereeCard (record 2)) "" ] |})
  = click 0 {| filterButtons :=
                 [ mkButton (Some "all") ["active"];
                   mkButton (Some "strict") [] ];
               refereeCards := [ mkCardElement (createRefereeCard (record 2)) "" ] |}.
Proof.
  apply (click_last_wins
           {| filterButtons :=
                [ mkButton (Some "all") ["active"];
                  mkButton (Some "strict") [] ];
              refereeCards := [ mkCardElement (createRefereeCard (record 2)) "" ] |}
           1 0).
  - simpl; lia.
  - reflexivity.
Defined.

(** Without that condition an earlier click shows through: on a page
    with a card that lacks [data-filter], the filter strict stops at that
    card, so what the filter all did to it and to the cards after it
    stays. *)
Lemma click_order_shows_through :
  let p := {| filterButtons := [ mkButton (Some "all") []; mkButton (Some "strict") [] ];
              refereeCards := [ mkCardElement (otherCard None) "";
                                mkCardElement (createRefereeCard (record 0)) "" ] |} in
  map style_display (refereeCards (click 1 (click 0 p))) = [ "block"; "block" ]
  /\ map style_display (refereeCards (click 1 p)) = [ ""; "" ]
  /\ clickCompletes 1 p = false.
Proof. repeat split; reflexivity. Qed.

Lemma created_card_kinds (referee : Referee) :
  In (classList (createRefereeCard referee),
      dataset_filter (createRefereeCard referee)) cardKinds.
Proof.
  simpl classList. simpl dataset_filter.
  unfold cardClasses, cardFilter, hasObservations.
  pose proof (above_3_5_not_below_2 (avgPenalties referee)) as Hex.
  destruct (observations referee) as [| o os]; simpl List.length; simpl Nat.ltb;
    destruct (3.5 <? avgPenalties referee)%float;
    destruct (avgPenalties referee <? 2.0)%float;
    try (specialize (Hex eq_refl); discriminate Hex);
    simpl; tauto.
Qed.

Lemma created_card_matches (c : Card) (f cls : string) :
  In (classList c, dataset_filter c) cardKinds ->
  In (f, cls) filterClasses ->
  matchesFilter (Some f) c = classList_contains (classList c) cls.
Proof.
  intros Hc Hf. unfold matchesFilter.
  destruct c as [classes attr colour sign lines]. simpl in *.
  repeat (destruct Hf as [Hf | Hf]; [ injection Hf as <- <- |]);
    try contradiction;
    repeat (destruct Hc as [Hc | Hc]; [ injection Hc as <- <- |]);
    try contradiction; reflexivity.
Qed.

Lemma created_card_unmatched (c : Card) :
  In (classList c, dataset_filter c) cardKinds ->
  matchesFilter None c = false.
Proof.
  intros Hc. unfold matchesFilter.
  destruct c as [classes attr colour sign lines]. simpl in *.
  repeat (destruct Hc as [Hc | Hc]; [ injection Hc as <- <- |]);
    try contradiction; reflexivity.
Qed.

(** X7. A button whose filter is all shows every card of the page,
    whether or not the card has a [data-filter] attribute and whatever it
    holds, and its listener always returns. *)
Theorem click_all_shows_every_card (p : Page) (i : nat) (b : Button) :
  nth_error (filterButtons p) i = Some b ->
  button_filter b = Some "all" ->
  Forall (fun c => style_display c = "block") (refereeCards (click i p))
  /\ clickCompletes i p = true.
Proof.
  intros Hb Hf. unfold click, clickCompletes. rewrite Hb, Hf. simpl.
  rewrite (showCards_all (Some "all") (fun _ => true)).
  - split; [| reflexivity ]. simpl.
    apply Forall_forall. intros c Hc. apply in_map_iff in Hc.
    destruct Hc as [c0 [<- _]]. reflexivity.
  - apply Forall_forall. intros c _. reflexivity.
Qed.

Lemma click_all_shows_every_card_witness :
  Forall (fun c => style_display c = "block")
    (refereeCards
       (click 0 {| filterButtons := [ mkButton (Some "all") [] ];
                   refereeCards :=
                     [ mkCardElement (createRefereeCard (record 0)) "none";
                       mkCardElement (otherCard None) "none" ] |}))
  /\ clickCompletes 0 {| filterButtons := [ mkButton (Some "all") [] ];
                         refereeCards :=
                           [ mkCardElement (createRefereeCard (record 0)) "none";
                             mkCardElement (otherCard None) "none" ] |} = true.
Proof.
  apply (click_all_shows_every_card
           {| filterButtons := [ mkButton (Some "all") [] ];
              refereeCards :=
                [ mkCardElement (createRefereeCard (record 0)) "none";
                  mkCardElement (otherCard None) "none" ] |}
           0 (mkButton (Some "all") [])).
  - reflexivity.
  - reflexivity.
Defined.

(** X8. A button without a [data-filter] attribute hides every card that
    [createRefereeCard] built: its filter is [undefined], which is not
    all and the text of which no card attribute includes. *)
Theorem click_without_filter_hides_cards (p : Page) (i : nat) (b : Button) :
  nth_error (filterButtons p) i = Some b ->
  button_filter b = None ->
  Forall (fun c => exists referee, card c = createRefereeCard referee)
         (refereeCards p) ->
  Forall (fun c => style_display c = "none") (refereeCards (click i p)).
Proof.
  intros Hb Hf Hcards. unfold click. rewrite Hb, Hf. simpl.
  rewrite (showCards_all None (fun _ => false)).
  - simpl. apply Forall_forall. intros c Hc. apply in_map_iff in Hc.
    destruct Hc as [c0 [<- _]]. reflexivity.
  - apply Forall_forall. intros c Hc.
    rewrite Forall_forall in Hcards. destruct (Hcards c Hc) as [referee Hr].
    rewrite Hr, testCard_built.
    rewrite (created_card_unmatched _ (created_card_kinds referee)). reflexivity.
Qed.

Lemma click_without_filter_hides_cards_witness :
  Forall (fun c => style_display c = "none")
    (refereeCards
       (click 0 {| filterButtons := [ mkButton None [] ];
                   refereeCards := [ mkCardElement (createRefereeCard (record 1)) "" ] |})).
Proof.
  apply (click_without_filter_hides_cards
           {| filterButtons := [ mkButton None [] ];
              refereeCards := [ mkCardElement (createRefereeCard (record 1)) "" ] |}
           0 (mkButton None [])).
  - reflexivity.
  - reflexivity.
  - repeat constructor. exists (record 1). reflexivity.
Defined.

(** X9. A click on the button whose filter is bias, strict or lenient
    shows a card that [createRefereeCard] built exactly when the card has
    the class has-bias, strict or lenient, and hides it otherwise,
    provided the cards before it on the page have their [data-filter]
    attribute, so that the loop reaches it. *)
Theorem click_shows_cards_of_class
    (p : Page) (i k : nat) (b : Button) (c : CardElement)
    (referee : Referee) (f cls : string) :
  In (f, cls) filterClasses ->
  nth_error (filterButtons p) i = Some b ->
  button_filter b = Some f ->
  nth_error (refereeCards p) k = Some c ->
  card c = createRefereeCard referee ->
  Forall (fun e => nodeFilter (card e) <> None) (firstn k (refereeCards p)) ->
  nth_error (refereeCards (click i p)) k
  = Some {| card := card c;
            style_display :=
              if classList_contains (classList (createRefereeCard referee)) cls
              then "block" else "none" |}.
Proof.
  intros Hf Hb Hbf Hc Hr Hpre. unfold click. rewrite Hb, Hbf.
  cbn [refereeCards].
  rewrite <- (created_card_matches (createRefereeCard referee) f cls
                (created_card_kinds referee) Hf).
  apply (showCards_nth (Some f) (refereeCards p) k c _ Hpre Hc).
  rewrite Hr. apply testCard_built.
Qed.

Lemma click_shows_cards_of_class_witness :
  nth_error
    (refereeCards
       (click 0 {| filterButtons := [ mkButton (Some "lenient") [] ];
                   refereeCards := [ mkCardElement (otherCard (Some "all lenient")) "";
                                     mkCardElement (createRefereeCard (record 2)) "" ] |}))
    1
  = Some {| card := createRefereeCard (record 2); style_display := "none" |}.
Proof.
  apply (click_shows_cards_of_class
           {| filterButtons := [ mkButton (Some "lenient") [] ];
              refereeCards := [ mkCardElement (otherCard (Some "all lenient")) "";
                                mkCardElement (createRefereeCard (record 2)) "" ] |}
           0 1 (mkButton (Some "lenient") [])
           (mkCardElement (createRefereeCard (record 2)) "")
           (record 2) "lenient" "lenient").
  - right; right; left; reflexivity.
  - reflexivity.
  - reflexivity.
  - reflexivity.
  - reflexivity.
  - repeat constructor. discriminate.
Defined.



(** ** The list of cards *)

(** X10. [populateRefereesList] keeps the children the list already has
    and appends the five cards after them; it does not clear the list, so
    a second call appends the same five cards once more. *)
Theorem populateRefereesList_twice (children : list Card) :
  firstn (List.length children) (populateRefereesList children) = children
  /\ List.length (populateRefereesList children) = (List.length children + 5)%nat
  /\ populateRefereesList (populateRefereesList children)
     = (children ++ map createRefereeCard referees
                 ++ map createRefereeCard referees)%list.
Proof.
  rewrite !populateRefereesList_appends. split; [| split].
  - rewrite firstn_app, Nat.sub_diag, firstn_all. simpl. apply app_nil_r.
  - rewrite length_app, length_map. reflexivity.
  - rewrite <- app_assoc. reflexivity.
Qed.

(** ** The emoji of an observation line *)

(** X11. [getSeverityEmoji] never yields a falsy value for any string:
    neither [undefined] nor the empty string reaches the markup of an
    observation line. *)
Theorem getSeverityEmoji_truthy (s : string) :
  truthy (getSeverityEmoji s) = true
  /\ getSeverityEmoji s <> VUndefined
  /\ getSeverityEmoji s <> VString "".
Proof.
  assert (Ht : truthy (getSeverityEmoji s) = true).
  { unfold getSeverityEmoji, or_else.
    destruct (truthy (get emojis s)) eqn:E; [ exact E | reflexivity ]. }
  split; [ exact Ht |]. split; intros H; rewrite H in Ht; discriminate Ht.
Qed.

(** ** The figures written with [toFixed] *)

Lemma N_to_Q_to_N (z : Z) : (0 <= z)%Z -> N_to_Q (Z.to_N z) = inject_Z z.
Proof. intros Hz. unfold N_to_Q. rewrite Z2N.id by exact Hz. reflexivity. Qed.

Lemma power_of_ten_nonneg (f : nat) : (0 <= inject_Z (10 ^ Z.of_nat f))%Q.
Proof.
  change 0%Q with (inject_Z 0). rewrite <- Zle_Qle.
  apply Z.pow_nonneg. lia.
Qed.

(** The integer of [toFixed] is the nearest one to the scaled magnitude,
    the upper one when two are equally near. *)
Lemma toFixedInteger_nearest (f : nat) (a : Q) :
  (0 <= a)%Q ->
  (a * inject_Z (10 ^ Z.of_nat f) - (1 # 2) < N_to_Q (toFixedInteger f a)
   /\ N_to_Q (toFixedInteger f a) <= a * inject_Z (10 ^ Z.of_nat f) + (1 # 2))%Q.
Proof.
  intros Ha. unfold toFixedInteger.
  set (y := (a * inject_Z (10 ^ Z.of_nat f) + (1 # 2))%Q).
  assert (Hy : (0 <= y)%Q).
  { unfold y. pose proof (Qmult_le_0_compat _ _ Ha (power_of_ten_nonneg f)). lra. }
  assert (Hfloor : (0 <= Qfloor y)%Z).
  { rewrite <- (Qfloor_Z 0). apply Qfloor_resp_le. exact Hy. }
  rewrite (N_to_Q_to_N _ Hfloor).
  pose proof (Qfloor_le y) as Hle.
  pose proof (Qlt_floor y) as Hlt. rewrite inject_Z_plus in Hlt.
  change (inject_Z 1) with 1%Q in Hlt.
  unfold y in *. split; lra.
Qed.

Lemma below_limit (a : Q) :
  (a < inject_Z (10 ^ 21))%Q -> Qle_bool (inject_Z (10 ^ 21)) a = false.
Proof.
  intros Ha. destruct (Qle_bool (inject_Z (10 ^ 21)) a) eqn:E; [| reflexivity ].
  apply Qle_bool_imp_le in E. generalize dependent (inject_Z (10 ^ 21)).
  intros limit Ha E. lra.
Qed.

Lemma string_app_assoc (a b c : string) : ((a ++ b) ++ c = a ++ (b ++ c))%string.
Proof. induction a as [| x a IH]; simpl; [ reflexivity | rewrite IH; reflexivity ]. Qed.

Lemma string_length_app (a b : string) :
  String.length (a ++ b) = (String.length a + String.length b)%nat.
Proof. induction a as [| x a IH]; simpl; [ reflexivity | rewrite IH; reflexivity ]. Qed.

Lemma substring_whole (a : string) : substring 0 (String.length a) a = a.
Proof. induction a as [| x a IH]; simpl; [ reflexivity | rewrite IH; reflexivity ]. Qed.

Lemma substring_head (a b : string) : substring 0 (String.length a) (a ++ b) = a.
Proof.
  induction a as [| x a IH]; simpl.
  - destruct b; reflexivity.
  - rewrite IH; reflexivity.
Qed.

Lemma substring_tail (a b : string) :
  substring (String.length a) (String.length b) (a ++ b) = b.
Proof.
  induction a as [| x a IH]; simpl; [ apply substring_whole | exact IH ].
Qed.

(** Printing a reversed numeral prints the accumulator last. *)
Lemma string_of_revapp (d acc : Decimal.uint) :
  NilEmpty.string_of_uint (Decimal.revapp d acc)
  = (NilEmpty.string_of_uint (Decimal.revapp d Decimal.Nil)
     ++ NilEmpty.string_of_uint acc)%string.
Proof.
  revert acc;
    induction d as [| d IH | d IH | d IH | d IH | d IH | d IH | d IH | d IH | d IH | d IH ];
    intros acc; simpl; [ reflexivity | .. ];
    rewrite IH; symmetry; rewrite IH; simpl;
    rewrite string_app_assoc; reflexivity.
Qed.

Lemma below_ten (d : N) :
  (d < 10)%N ->
  (d = 0 \/ d = 1 \/ d = 2 \/ d = 3 \/ d = 4 \/ d = 5
   \/ d = 6 \/ d = 7 \/ d = 8 \/ d = 9)%N.
Proof. lia. Qed.

(** Ten times a number plus a digit has that digit as its lowest one. *)
Lemma to_lu_digit (p : positive) (d : N) :
  (d < 10)%N ->
  DecimalPos.Unsigned.to_lu (10 * N.pos p + d)
  = lastDigit d (DecimalPos.Unsigned.to_lu (N.pos p)).
Proof.
  intros Hd. pose proof (below_ten d Hd) as Hcases.
  pose proof (DecimalPos.Unsigned.to_ldec_tenfold p) as H0.
  repeat (destruct Hcases as [-> | Hcases]); [ .. | subst d ].
  - rewrite N.add_0_r. exact H0.
  - replace (10 * N.pos p + 1)%N with (N.succ (10 * N.pos p)) by lia.
    rewrite !DecimalPos.Unsigned.to_lu_succ, H0. reflexivity.
  - replace (10 * N.pos p + 2)%N with (N.succ (N.succ (10 * N.pos p))) by lia.
    rewrite !DecimalPos.Unsigned.to_lu_succ, H0. reflexivity.
  - replace (10 * N.pos p + 3)%N
      with (N.succ (N.succ (N.succ (10 * N.pos p)))) by lia.
    rewrite !DecimalPos.Unsigned.to_lu_succ, H0. reflexivity.
  - replace (10 * N.pos p + 4)%N
      with (N.succ (N.succ (N.succ (N.succ (10 * N.pos p))))) by lia.
    rewrite !DecimalPos.Unsigned.to_lu_succ, H0. reflexivity.
  - replace (10 * N.pos p + 5)%N
      with (N.succ (N.succ (N.succ (N.succ (N.succ (10 * N.pos p)))))) by lia.
    rewrite !DecimalPos.Unsigned.to_lu_succ, H0. reflexivity.
  - replace (10 * N.pos p + 6)%N
      with (N.succ (N.succ (N.succ (N.succ (N.succ (N.succ (10 * N.pos p)))))))
      by lia.
    rewrite !DecimalPos.Unsigned.to_lu_succ, H0. reflexivity.
  - replace (10 * N.pos p + 7)%N
      with (N.succ (N.succ (N.succ (N.succ (N.succ (N.succ (N.succ
             (10 * N.pos p)))))))) by lia.
    rewrite !DecimalPos.Unsigned.to_lu_succ, H0. reflexivity.
  - replace (10 * N.pos p + 8)%N
      with (N.succ (N.succ (N.succ (N.succ (N.succ (N.succ (N.succ (N.succ
             (10 * N.pos p))))))))) by lia.
    rewrite !DecimalPos.Unsigned.to_lu_succ, H0. reflexivity.
  - replace (10 * N.pos p + 9)%N
      with (N.succ (N.succ (N.succ (N.succ (N.succ (N.succ (N.succ (N.succ (N.succ
             (10 * N.pos p)))))))))) by lia.
    rewrite !DecimalPos.Unsigned.to_lu_succ, H0. reflexivity.
Qed.

Lemma string_of_nonnil (d : Decimal.uint) :
  d <> Decimal.Nil -> NilZero.string_of_uint d = NilEmpty.string_of_uint d.
Proof. destruct d; [ contradiction | reflexivity .. ]. Qed.

(** The digits of ten times a number plus a digit are the digits of the
    number followed by the digit. *)
Lemma digits_step (p : positive) (d : N) :
  (d < 10)%N -> digits (10 * N.pos p + d) = (digits (N.pos p) ++ digits d)%string.
Proof.
  intros Hd. unfold digits.
  assert (Hn : N.to_uint (10 * N.pos p + d)
               = Decimal.rev (DecimalPos.Unsigned.to_lu (10 * N.pos p + d))).
  { destruct (10 * N.pos p + d)%N eqn:E; [ lia | reflexivity ]. }
  rewrite Hn, (to_lu_digit p d Hd).
  change (N.to_uint (N.pos p))
    with (Decimal.rev (DecimalPos.Unsigned.to_lu (N.pos p))).
  set (x := DecimalPos.Unsigned.to_lu (N.pos p)).
  assert (Hx : Decimal.rev x <> Decimal.Nil)
    by apply DecimalPos.Unsigned.to_uint_nonnil.
  rewrite (string_of_nonnil (Decimal.rev x) Hx).
  pose proof (below_ten d Hd) as Hcases.
  repeat (destruct Hcases as [-> | Hcases]); [ .. | subst d ];
    unfold lastDigit, Decimal.rev; simpl Decimal.revapp;
    (rewrite string_of_nonnil;
     [ rewrite string_of_revapp; reflexivity
     | intros E; apply (f_equal NilEmpty.string_of_uint) in E;
       rewrite string_of_revapp in E; simpl in E;
       destruct (NilEmpty.string_of_uint (Decimal.revapp x Decimal.Nil));
       discriminate E ]).
Qed.

Lemma digits_nonempty (n : N) : (1 <= String.length (digits n))%nat.
Proof.
  unfold digits. destruct (N.to_uint n); simpl; lia.
Qed.

Lemma digit_length (d : N) : (d < 10)%N -> String.length (digits d) = 1%nat.
Proof.
  intros Hd. pose proof (below_ten d Hd) as Hcases.
  repeat (destruct Hcases as [-> | Hcases]); [ .. | subst d ]; reflexivity.
Qed.

(** With one fraction digit the point goes before the last digit. *)
Lemma placePoint_last (a b : string) :
  (1 <= String.length a)%nat -> String.length b = 1%nat ->
  placePoint 1 (a ++ b) = (a ++ "." ++ b)%string.
Proof.
  intros Ha Hb. unfold placePoint. rewrite string_length_app, Hb.
  destruct (Nat.leb_spec (String.length a + 1) 1) as [H | _]; [ lia |].
  cbv zeta. rewrite string_length_app, Hb.
  replace (String.length a + 1 - 1)%nat with (String.length a) by lia.
  simpl Nat.eqb. cbv iota.
  pose proof (substring_tail a b) as Ht. rewrite Hb in Ht.
  rewrite substring_head, Ht. reflexivity.
Qed.


(** The digits [toFixed(1)] writes for the integer [n]: those of [n / 10],
    a point, and the digit [n mod 10]. *)
Lemma toFixedDigits_one (n : N) :
  toFixedDigits 1 n = (digits (n / 10) ++ "." ++ digits (n mod 10))%string.
Proof.
  unfold toFixedDigits.
  destruct (N.ltb_spec n 10) as [Hsmall | Hbig].
  - pose proof (below_ten n Hsmall) as Hcases.
    repeat (destruct Hcases as [-> | Hcases]); [ .. | subst n ]; reflexivity.
  - pose proof (N.div_mod n 10) as Hn.
    assert (Hd : (n mod 10 < 10)%N) by (apply N.mod_lt; lia).
    assert (Ha : (1 <= n / 10)%N).
    { apply N.div_le_lower_bound; lia. }
    destruct (n / 10)%N as [| p] eqn:Ea; [ lia |].
    rewrite Hn at 1 by lia.
    rewrite (digits_step p (n mod 10) Hd).
    apply placePoint_last; [ apply digits_nonempty | apply digit_length, Hd ].
Qed.

(** A finite double below the limit, formatted with one fraction digit. *)
Lemma toFixed_one_finite (x : float) (q : Q) :
  float_to_Q x = Some q ->
  (Qabs q < inject_Z (10 ^ 21))%Q ->
  toFixed x 1
  = Written ((if Qle_bool 0 q then "" else "-")
             ++ toFixedDigits 1 (toFixedInteger 1 (Qabs q)))%string.
Proof.
  intros Hq Hlimit. unfold toFixed.
  change (100 <? 1)%nat with false. cbv iota.
  rewrite Hq. cbv zeta. rewrite (below_limit _ Hlimit). reflexivity.
Qed.

(** More than 100 fraction digits raise a RangeError, for every number. *)
Lemma toFixed_range_error (x : float) (f : nat) :
  (100 < f)%nat -> toFixed x f = RangeError.
Proof.
  intros Hf. unfold toFixed.
  destruct (Nat.ltb_spec 100 f) as [_ | H]; [ reflexivity | lia ].
Qed.

(** X12. [toFixed(1)], the call the card makes for its two figures,
    rounds to the nearest tenth: for a finite double of magnitude below
    [10^21] it writes a minus sign for a negative value, then the decimal
    digits of [n / 10], a point and the digit [n mod 10], where [n] is
    the integer nearest to ten times the magnitude, the upper one of two
    equally near; so the figure written is within 0.05 of the value. *)
Theorem toFixed_rounds_to_nearest (x : float) (q : Q) :
  float_to_Q x = Some q ->
  (Qabs q < inject_Z (10 ^ 21))%Q ->
  exists n : N,
    toFixed x 1
    = Written ((if Qle_bool 0 q then "" else "-")
               ++ NilZero.string_of_uint (N.to_uint (n / 10)) ++ "."
               ++ NilZero.string_of_uint (N.to_uint (n mod 10)))%string
    /\ (Qabs q * 10 - (1 # 2) < N_to_Q n
        /\ N_to_Q n <= Qabs q * 10 + (1 # 2))%Q.
Proof.
  intros Hq Hlimit. exists (toFixedInteger 1 (Qabs q)). split.
  - rewrite (toFixed_one_finite x q Hq Hlimit), toFixedDigits_one. reflexivity.
  - apply (toFixedInteger_nearest 1), Qabs_nonneg.
Qed.

Lemma toFixed_rounds_to_nearest_witness :
  exists n : N,
    toFixed (-33.3) 1
    = Written ("-" ++ NilZero.string_of_uint (N.to_uint (n / 10)) ++ "."
               ++ NilZero.string_of_uint (N.to_uint (n mod 10)))%string
    /\ (Qabs (-2343279181116211 # 70368744177664) * 10 - (1 # 2) < N_to_Q n
        /\ N_to_Q n
           <= Qabs (-2343279181116211 # 70368744177664) * 10 + (1 # 2))%Q.
Proof.
  apply (toFixed_rounds_to_nearest (-33.3) (-2343279181116211 # 70368744177664)).
  - vm_compute. reflexivity.
  - vm_compute. reflexivity.
Defined.

(** The exact value of a double is positive exactly when the double is
    above 0. *)
Lemma float_to_Q_positive (x : float) (q : Q) :
  float_to_Q x = Some q -> ((0 <? x)%float = true <-> (0 < q)%Q).
Proof.
  unfold float_to_Q. rewrite ltb_spec, SF_0.
  destruct (Prim2SF x) as [s | s | | s m e]; try discriminate;
    intros H; apply Some_inj in H; subst q; cbv [SFltb SFcompare].
  - split; [ discriminate | intros H; lra ].
  - assert (Hv : (0 < inject_Z (Z.pos m) * Qpower 2 e)%Q).
    { apply Qmult_lt_0_compat.
      - change 0%Q with (inject_Z 0). rewrite <- Zlt_Qlt. lia.
      - apply Qpower_0_lt. lra. }
    cbv zeta. rewrite Qred_correct.
    destruct s; split; intros H; try reflexivity; try discriminate H; lra.
Qed.

Lemma toFixedInteger_small (a : Q) :
  (0 <= a)%Q -> (a < 1 # 20)%Q -> toFixedInteger 1 a = 0%N.
Proof.
  intros Ha Hsmall.
  destruct (toFixedInteger_nearest 1 a Ha) as [_ Hup].
  change (inject_Z (10 ^ Z.of_nat 1)) with 10%Q in Hup.
  assert (Hlt : (N_to_Q (toFixedInteger 1 a) < inject_Z 1)%Q)
    by (change (inject_Z 1) with 1%Q; lra).
  unfold N_to_Q in Hlt. rewrite <- Zlt_Qlt in Hlt. lia.
Qed.

(** X13. The home-bias figure of a card carries the plus sign whenever
    the home bias is above 0, also when it rounds to zero: a home bias
    between 0 and 0.05 is written [+0.0%], one between -0.05 and 0 is
    written [-0.0%], and only a home bias of zero is written [0.0%]. *)
Theorem home_bias_text_near_zero (referee : Referee) (q : Q) :
  float_to_Q (homeBias referee) = Some q ->
  (- (1 # 20) < q)%Q -> (q < 1 # 20)%Q ->
  homeBiasText referee
  = Some (if Qle_bool q 0
          then if Qle_bool 0 q then "0.0%" else "-0.0%"
          else "+0.0%")%string.
Proof.
  intros Hq Hlow Hhigh.
  pose proof (float_to_Q_positive _ _ Hq) as Hpos.
  assert (Ha : (Qabs q < 1 # 20)%Q).
  { apply Qabs_case; intros; lra. }
  assert (Hlimit : (Qabs q < inject_Z (10 ^ 21))%Q).
  { apply Qlt_le_trans with (1 # 20)%Q; [ exact Ha |].
    unfold Qle. vm_compute. discriminate. }
  unfold homeBiasText. rewrite (toFixed_one_finite _ q Hq Hlimit).
  rewrite (toFixedInteger_small _ (Qabs_nonneg q) Ha).
  simpl biasSign. cbv [bind written].
  destruct (Qle_bool q 0) eqn:E0.
  - apply Qle_bool_imp_le in E0.
    assert (Hz : (0 <? homeBias referee)%float = false).
    { destruct (0 <? homeBias referee)%float; [| reflexivity ].
      destruct Hpos as [Hpos _]. specialize (Hpos eq_refl). lra. }
    rewrite Hz. destruct (Qle_bool 0 q); reflexivity.
  - assert (Hq0 : (0 < q)%Q).
    { destruct (Qlt_le_dec 0 q) as [H | H]; [ exact H |].
      apply Qle_bool_iff in H. congruence. }
    destruct Hpos as [_ Hpos]. rewrite (Hpos Hq0).
    assert (H0 : Qle_bool 0 q = true) by (apply Qle_bool_iff; lra).
    rewrite H0. reflexivity.
Qed.

Lemma home_bias_text_near_zero_witness :
  homeBiasText (mkReferee 1 "steady" 10 30 3 0.04 []) = Some "+0.0%".
Proof.
  apply (home_bias_text_near_zero (mkReferee 1 "steady" 10 30 3 0.04 [])
           (5764607523034235 # 144115188075855872)).
  - vm_compute. reflexivity.
  - vm_compute. reflexivity.
  - vm_compute. reflexivity.
Defined.
